(** * Document_validator: the validation rules and the service around them

    A shallow embedding of [models.py], [validation.py], [ai_extractor.py]
    and [main.py], followed by the properties of the validation stage, of the
    vessel list loader, of start-up and of the [/validate] handler.

    Conventions.
    - A Python [str] is a Rocq [string]; its characters are the code points
      U+0000..U+00FF.  [Optional[T]] is [option T], [int] is [Z].
    - An exception is a value of [exn]; code that may raise returns
      [exn + A] or runs in the monad [M] of the request handler.
    - What the standard library, pydantic, FastAPI and the Gemini client do is
      given by small definitions of their own, next to the code that calls
      them. *)

From Stdlib Require Import String Ascii List ZArith Bool Lia.
From Stdlib Require Import DecimalString.
Import ListNotations.

Local Open Scope string_scope.
Local Open Scope Z_scope.

(** ** Python built-ins used by the sources *)

Module Py.

(** [str.isspace] on one character, for U+0000..U+00FF: the characters
    CPython's [_PyUnicode_IsWhitespace] accepts in that range. *)
Definition isspace (c : ascii) : bool :=
  let n := Z.of_nat (nat_of_ascii c) in
  ((9 <=? n) && (n <=? 13)) || ((28 <=? n) && (n <=? 32))
  || (n =? 133) || (n =? 160).

(** [s.lstrip()] *)
Fixpoint lstrip (s : string) : string :=
  match s with
  | EmptyString => EmptyString
  | String c s' => if isspace c then lstrip s' else s
  end.

(** [s.rstrip()] *)
Fixpoint rstrip (s : string) : string :=
  match s with
  | EmptyString => EmptyString
  | String c s' =>
      match rstrip s' with
      | EmptyString => if isspace c then EmptyString else String c EmptyString
      | r => String c r
      end
  end.

(** [s.strip()] *)
Definition strip (s : string) : string := rstrip (lstrip s).

(** Every character of [s] is white space. *)
Fixpoint all_space (s : string) : bool :=
  match s with
  | EmptyString => true
  | String c s' => isspace c && all_space s'
  end.

(** Truth value of an [Optional[str]]: [None] and [""] are false. *)
Definition truthy (o : option string) : bool :=
  match o with
  | None => false
  | Some s => negb (s =? "")%string
  end.

(** [str(n)] for an [int] *)
Definition str_of_int (n : Z) : string :=
  NilZero.string_of_int (Z.to_int n).

(** The values [json.load] produces.  A float keeps its literal. *)
#[warnings="-register-all"]
Inductive json : Type :=
| JNull
| JBool (b : bool)
| JInt (n : Z)
| JFloat (literal : string)
| JStr (s : string)
| JList (items : list json)
| JDict (members : list (string * json)).

(** [s == v] for a [str] [s] and a decoded JSON value [v]: a string equals
    only the same string. *)
Definition str_eq (s : string) (v : json) : bool :=
  match v with
  | JStr t => (s =? t)%string
  | _ => false
  end.

(** [s in l] for a [str] [s] and a [list] [l] *)
Definition str_in (s : string) (l : list json) : bool :=
  existsb (str_eq s) l.

(** [isinstance(v, list)] *)
Definition is_list (v : json) : bool :=
  match v with
  | JList _ => true
  | _ => false
  end.

(** [isinstance(v, str)] *)
Definition is_str (v : json) : bool :=
  match v with
  | JStr _ => true
  | _ => false
  end.

(** The exception classes the sources raise or catch, each with the
    arguments it is built from. *)
Inductive exn : Type :=
| Exception (msg : string)
| ValueError (msg : string)
| JSONDecodeError (msg doc : string) (pos : Z)
| AttributeError (msg : string)
| OSError (msg : string)
| FileNotFoundError (msg : string)
| HTTPException (status_code : Z) (detail : string).

(** [isinstance(e, ValueError)]: [JSONDecodeError] is a subclass. *)
Definition is_ValueError (e : exn) : bool :=
  match e with
  | ValueError _ | JSONDecodeError _ _ _ => true
  | _ => false
  end.

(** [isinstance(e, FileNotFoundError)] *)
Definition is_FileNotFoundError (e : exn) : bool :=
  match e with
  | FileNotFoundError _ => true
  | _ => false
  end.

(** [doc.count('\n', 0, pos)] *)
Fixpoint count_newlines (doc : string) (pos : nat) : Z :=
  match pos, doc with
  | S p, String c d =>
      (if Ascii.eqb c "010"%char then 1 else 0) + count_newlines d p
  | _, _ => 0
  end.

(** [doc.rfind('\n', 0, pos)], with [None] for its -1: [i] is the index of the
    character at the head of [doc]. *)
Fixpoint rfind_newline (doc : string) (i : Z) (pos : nat) : option Z :=
  match pos, doc with
  | S p, String c d =>
      match rfind_newline d (i + 1) p with
      | Some j => Some j
      | None => if Ascii.eqb c "010"%char then Some i else None
      end
  | _, _ => None
  end.

(** The message [JSONDecodeError.__init__] builds from its arguments. *)
Definition json_errmsg (msg doc : string) (pos : Z) : string :=
  let lineno := count_newlines doc (Z.to_nat pos) + 1 in
  let colno :=
    match rfind_newline doc 0 (Z.to_nat pos) with
    | Some j => pos - j
    | None => pos - (-1)
    end in
  msg ++ ": line " ++ str_of_int lineno ++ " column " ++ str_of_int colno
      ++ " (char " ++ str_of_int pos ++ ")".

(** [str(e)] *)
Definition str_of_exn (e : exn) : string :=
  match e with
  | Exception msg | ValueError msg | AttributeError msg
  | OSError msg | FileNotFoundError msg => msg
  | JSONDecodeError msg doc pos => json_errmsg msg doc pos
  | HTTPException status_code detail =>
      str_of_int status_code ++ ": " ++ detail
  end.

End Py.

(** ** [datetime.date] *)

Module Date.

Record date : Type := mk { year : Z; month : Z; day : Z }.

(** [a > b]: dates compare as the triples (year, month, day). *)
Definition gtb (a b : date) : bool :=
  (year b <? year a)
  || ((year a =? year b)
      && ((month b <? month a)
          || ((month a =? month b) && (day b <? day a)))).

Definition is_leap (y : Z) : bool :=
  (y mod 4 =? 0) && (negb (y mod 100 =? 0) || (y mod 400 =? 0)).

Definition days_in_month (y m : Z) : Z :=
  if m =? 2 then (if is_leap y then 29 else 28)
  else if (m =? 4) || (m =? 6) || (m =? 9) || (m =? 11) then 30
  else 31.

(** The fields are those of a calendar date, as they are in every [date]
    object. *)
Definition valid (d : date) : bool :=
  (1 <=? year d) && (year d <=? 9999) && (1 <=? month d) && (month d <=? 12)
  && (1 <=? day d) && (day d <=? days_in_month (year d) (month d)).

(** [date(y, m, d)]: [None] where the constructor raises [ValueError]. *)
Definition make (y m d : Z) : option date :=
  if valid (mk y m d) then Some (mk y m d) else None.

(** The number of days before January 1st of year [y]. *)
Definition days_before_year (y : Z) : Z :=
  let y := y - 1 in y * 365 + y / 4 - y / 100 + y / 400.

Definition DAYS_BEFORE_MONTH : list Z :=
  [-1; 0; 31; 59; 90; 120; 151; 181; 212; 243; 273; 304; 334].

(** The number of days of year [y] before the first day of month [m]. *)
Definition days_before_month (y m : Z) : Z :=
  nth (Z.to_nat m) DAYS_BEFORE_MONTH 0
  + (if (2 <? m) && is_leap y then 1 else 0).

(** [d.toordinal()]: the number of the day, counted from 1 on 0001-01-01. *)
Definition toordinal (d : date) : Z :=
  days_before_year (year d) + days_before_month (year d) (month d) + day d.

Definition digit (c : ascii) : option Z :=
  let n := Z.of_nat (nat_of_ascii c) in
  if (48 <=? n) && (n <=? 57) then Some (n - 48) else None.

Definition digits2 (a b : ascii) : option Z :=
  match digit a, digit b with
  | Some x, Some y => Some (10 * x + y)
  | _, _ => None
  end.

Definition digits4 (a b c d : ascii) : option Z :=
  match digits2 a b, digits2 c d with
  | Some x, Some y => Some (100 * x + y)
  | _, _ => None
  end.

(** [date.fromisoformat] on the format [YYYY-MM-DD], the one every version
    of the standard library reads: [None] where it raises [ValueError]. *)
Definition fromisoformat (s : string) : option date :=
  match s with
  | String y1 (String y2 (String y3 (String y4 (String "-"
      (String m1 (String m2 (String "-"
        (String d1 (String d2 EmptyString))))))))) =>
      match digits4 y1 y2 y3 y4, digits2 m1 m2, digits2 d1 d2 with
      | Some y, Some m, Some d => make y m d
      | _, _, _ => None
      end
  | _ => None
  end.

End Date.

(** ** [models.py] *)

Module Models.

Import Date.

(** [DocumentRequest]: [document_text] is a [str] of [min_length=1]. *)
Record DocumentRequest : Type := { document_text : string }.

(** pydantic's validation of a string offered as [document_text]: [None]
    where it reports a validation error. *)
Definition DocumentRequest_validate (text : string)
  : option DocumentRequest :=
  if (1 <=? String.length text)%nat
  then Some {| document_text := text |}
  else None.

Record ExtractedData : Type := {
  policy_number : option string;
  vessel_name : option string;
  policy_start_date : option date;
  policy_end_date : option date;
  insured_value : option Z
}.

Record ValidationResult : Type := {
  rule : string;
  status : string;
  message : string
}.

Record ValidationResponse : Type := {
  extracted_data : ExtractedData;
  validation_results : list ValidationResult
}.

End Models.

(** ** [validation.py] *)

Module Validation.

Import Py Date Models.

(** What [open] followed by [json.load] does on the vessels file, in the four
    cases the loader and start-up tell apart.  Other failures of the two
    calls, such as a file that is not UTF-8 text, are outside these cases. *)
Inductive source : Type :=
| NoSuchFile                                   (* [open] raises [FileNotFoundError] *)
| Unreadable (msg : string)                    (* [open] raises another [OSError] *)
| NotJSON (msg doc : string) (pos : Z)         (* [json.load] raises [JSONDecodeError] *)
| Loaded (vessels : json).                     (* [json.load] returns *)

Record DocumentValidator : Type := {
  valid_vessels_path : string;
  valid_vessels : list json
}.

(** [_load_valid_vessels], for the path [path] whose file reads as [src]. *)
Definition _load_valid_vessels (path : string) (src : source)
  : exn + list json :=
  match src with
  | Loaded vessels =>
      match vessels with
      | JList items => inr items
      | _ => inl (ValueError "Valid vessels file must contain a JSON array")
      end
  | NoSuchFile =>
      inl (FileNotFoundError ("Valid vessels file not found at: " ++ path))
  | NotJSON msg doc pos =>
      inl (JSONDecodeError
             ("Invalid JSON in vessels file: " ++ json_errmsg msg doc pos)
             doc pos)
  | Unreadable msg => inl (OSError msg)
  end.

Definition default_valid_vessels_path : string :=
  "provided_assets/valid_vessels.json".

(** [DocumentValidator.__init__]; [read] gives, for a path, what opening and
    decoding the file there does.  The path is kept as the string it was
    given as, which is what [str(Path(p))] is for the default path. *)
Definition DocumentValidator_init (path : string) (read : string -> source)
  : exn + DocumentValidator :=
  match _load_valid_vessels path (read path) with
  | inl e => inl e
  | inr vessels =>
      inr {| valid_vessels_path := path; valid_vessels := vessels |}
  end.

Definition validate_date_consistency (start_date end_date : option date)
  : ValidationResult :=
  let rule := "Date Consistency" in
  match start_date, end_date with
  | Some start_date, Some end_date =>
      if gtb end_date start_date
      then {| rule := rule; status := "PASS";
              message := "Policy end date is after start date." |}
      else {| rule := rule; status := "FAIL";
              message := "Policy end date cannot be before the start date." |}
  | _, _ =>
      {| rule := rule; status := "FAIL";
         message := "Both start and end dates must be present for validation." |}
  end.

Definition validate_insured_value (insured_value : option Z)
  : ValidationResult :=
  let rule := "Value Check" in
  match insured_value with
  | None =>
      {| rule := rule; status := "FAIL";
         message := "Insured value is missing." |}
  | Some insured_value =>
      if 0 <? insured_value
      then {| rule := rule; status := "PASS";
              message := "Insured value is valid." |}
      else {| rule := rule; status := "FAIL";
              message := "Insured value must be a positive number." |}
  end.

Definition validate_vessel_name (self : DocumentValidator)
    (vessel_name : option string) : ValidationResult :=
  let rule := "Vessel Name Match" in
  let missing :=
    {| rule := rule; status := "FAIL";
       message := "Vessel name is missing." |} in
  match vessel_name with
  | None => missing
  | Some name =>
      if (strip name =? "")%string then missing
      else if str_in name (valid_vessels self)
      then {| rule := rule; status := "PASS";
              message := "Vessel '" ++ name ++ "' is on the approved list." |}
      else {| rule := rule; status := "FAIL";
              message := "Vessel '" ++ name ++ "' is not on the approved list." |}
  end.

Definition validate_policy_number (policy_number : option string)
  : ValidationResult :=
  let rule := "Completeness Check" in
  let missing :=
    {| rule := rule; status := "FAIL";
       message := "Policy number is missing." |} in
  match policy_number with
  | None => missing
  | Some number =>
      if (strip number =? "")%string then missing
      else {| rule := rule; status := "PASS";
              message := "Policy number is present." |}
  end.

(** [results.append(r)] *)
Definition append (results : list ValidationResult) (r : ValidationResult)
  : list ValidationResult :=
  (results ++ [r])%list.

Definition validate_all (self : DocumentValidator)
    (extracted_data : ExtractedData) : list ValidationResult :=
  let results := [] in
  let results :=
    append results
      (validate_date_consistency (policy_start_date extracted_data)
                                 (policy_end_date extracted_data)) in
  let results :=
    append results (validate_insured_value (insured_value extracted_data)) in
  let results :=
    append results (validate_vessel_name self (vessel_name extracted_data)) in
  let results :=
    append results (validate_policy_number (policy_number extracted_data)) in
  results.

End Validation.

(** ** Effects of a request: exceptions and calls to the Gemini client *)

Module Eff.

Import Py.

(** One call [client.models.generate_content(model=..., contents=...)]; the
    [config] argument is the same in every call. *)
Record call : Type := { model : string; contents : string }.

(** A computation that may raise, and that appends the calls it makes to the
    calls made so far. *)
Definition M (A : Type) : Type := list call -> (exn + A) * list call.

Definition ret {A} (a : A) : M A := fun made => (inr a, made).

Definition bind {A B} (m : M A) (f : A -> M B) : M B :=
  fun made =>
    match m made with
    | (inl e, made') => (inl e, made')
    | (inr a, made') => f a made'
    end.

Definition raise {A} (e : exn) : M A := fun made => (inl e, made).

(** [try: m  except Exception as e: h e] *)
Definition try_except {A} (m : M A) (h : exn -> M A) : M A :=
  fun made =>
    match m made with
    | (inl e, made') => h e made'
    | (inr a, made') => (inr a, made')
    end.

Definition run {A} (m : M A) : (exn + A) * list call := m [].

Declare Scope eff_scope.
Delimit Scope eff_scope with eff.
Notation "x <- m ;; k" := (bind m (fun x => k))
  (at level 61, m at next level, right associativity) : eff_scope.

End Eff.

(** ** [ai_extractor.py] *)

Module AiExtractor.

Import Py Eff.
Local Open Scope eff_scope.

Record AIExtractedData : Type := {
  policy_number : option string;
  vessel_name : option string;
  policy_start_date : option string;
  policy_end_date : option string;
  insured_value : option Z
}.

Record AIExtractor : Type := { api_key : string }.

(** [AIExtractor.__init__]; [getenv] is [os.getenv].  The client it builds
    from the key is the [gemini] of the calls below. *)
Definition AIExtractor_init (api_key : option string)
    (getenv : string -> option string) : exn + AIExtractor :=
  let api_key :=
    if truthy api_key then api_key else getenv "GEMINI_API_KEY" in
  match api_key with
  | Some key =>
      if (key =? "")%string
      then inl (ValueError
        "Gemini API key not found. Please set GEMINI_API_KEY environment variable.")
      else inr {| api_key := key |}
  | None =>
      inl (ValueError
        "Gemini API key not found. Please set GEMINI_API_KEY environment variable.")
  end.

(** What one call of the client does: it raises, or it returns a response
    whose [parsed] attribute is a record or [None]. *)
Inductive reply : Type :=
| Raises (e : exn)
| Parsed (parsed : option AIExtractedData).

Section Client.

(** The Gemini service. *)
Variable gemini : call -> reply.

(** The text of [EXTRACTION_PROMPT] before and after its one placeholder
    [{document_text}]. *)
Variables prompt_head prompt_tail : string.

(** [EXTRACTION_PROMPT.format(document_text=document_text)] *)
Definition format_prompt (document_text : string) : string :=
  prompt_head ++ document_text ++ prompt_tail.

Definition generate_content (c : call) : M (option AIExtractedData) :=
  fun made =>
    match gemini c with
    | Raises e => (inl e, (made ++ [c])%list)
    | Parsed parsed => (inr parsed, (made ++ [c])%list)
    end.

(** [extract_data_sync]: the result is [response.parsed], which is [None]
    when the client could not parse the model's answer. *)
Definition extract_data_sync (self : AIExtractor) (document_text : string)
  : M (option AIExtractedData) :=
  try_except
    (let prompt := format_prompt document_text in
     extracted <- generate_content
                    {| model := "gemini-2.5-flash"; contents := prompt |} ;;
     ret extracted)
    (fun e => raise (Exception ("AI extraction failed: " ++ str_of_exn e))).

End Client.

End AiExtractor.

(** ** [main.py] *)

Module Main.

Import Py Date Models Validation Eff.
Import AiExtractor(AIExtractedData, AIExtractor, AIExtractor_init, reply,
                   extract_data_sync).
Local Open Scope eff_scope.

(** What start-up reads from outside the process: the environment variables
    as they are after the module's [load_dotenv()] has run, and, per path,
    the outcome of opening and decoding the file there. *)
Record Env : Type := {
  getenv : string -> option string;
  read_json : string -> source
}.

(** The two module-level names bound at start-up. *)
Record Services : Type := {
  ai_extractor : option AIExtractor;
  document_validator : option DocumentValidator
}.

(** The [except] clauses of the initialisation block, entered with the
    exception [e]; [extractor] is what [ai_extractor] was bound to before
    the exception.  An exception of no listed class leaves the module, and
    the service does not start. *)
Definition on_init_error (extractor : option AIExtractor) (e : exn)
  : exn + Services :=
  if is_ValueError e
  then inr {| ai_extractor := None; document_validator := None |}
  else if is_FileNotFoundError e
  then inr {| ai_extractor := extractor; document_validator := None |}
  else inl e.

(** The initialisation block: [inl e] when the module raises [e], [inr s]
    when the service starts with the bindings [s]. *)
Definition startup (env : Env) : exn + Services :=
  match AIExtractor_init None (getenv env) with
  | inl e => on_init_error None e
  | inr extractor =>
      match DocumentValidator_init default_valid_vessels_path
              (read_json env) with
      | inl e => on_init_error (Some extractor) e
      | inr validator =>
          inr {| ai_extractor := Some extractor;
                 document_validator := Some validator |}
      end
  end.

Section Handler.

Variable gemini : call -> reply.
Variables prompt_head prompt_tail : string.

(** [date.fromisoformat]: [None] where it raises [ValueError]. *)
Variable fromisoformat : string -> option date.

(** The conversion of one date of the extractor's record:
    [d = None; if text: try: d = date.fromisoformat(text)
     except (ValueError, TypeError): pass]. *)
Definition parse_date (text : option string) : option date :=
  let d := None in
  if truthy text
  then match text with
       | Some iso =>
           match fromisoformat iso with
           | Some parsed => Some parsed
           | None => d
           end
       | None => d
       end
  else d.

(** The body of the first [try] of the handler, after the extractor has
    returned [ai_extracted]. *)
Definition convert (ai_extracted : option AIExtractedData)
  : M ExtractedData :=
  match ai_extracted with
  | None =>
      raise (AttributeError
               "'NoneType' object has no attribute 'policy_start_date'")
  | Some ai =>
      let start_date := parse_date (AiExtractor.policy_start_date ai) in
      let end_date := parse_date (AiExtractor.policy_end_date ai) in
      ret {| policy_number := AiExtractor.policy_number ai;
             vessel_name := AiExtractor.vessel_name ai;
             policy_start_date := start_date;
             policy_end_date := end_date;
             insured_value := AiExtractor.insured_value ai |}
  end.

(** The handler of [POST /validate]. *)
Definition validate_document (services : Services)
    (request : DocumentRequest) : M ValidationResponse :=
  match ai_extractor services with
  | None =>
      raise (HTTPException 503
        "AI service not available. Please configure GEMINI_API_KEY.")
  | Some extractor =>
  match document_validator services with
  | None =>
      raise (HTTPException 503
        "Validation service not available. Check valid_vessels.json file.")
  | Some validator =>
      extracted_data <-
        try_except
          (ai_extracted <-
             extract_data_sync gemini prompt_head prompt_tail extractor
               (document_text request) ;;
           convert ai_extracted)
          (fun e =>
             raise (HTTPException 500
                      ("AI extraction failed: " ++ str_of_exn e))) ;;
      validation_results <-
        try_except
          (ret (validate_all validator extracted_data))
          (fun e =>
             raise (HTTPException 500
                      ("Validation failed: " ++ str_of_exn e))) ;;
      ret {| extracted_data := extracted_data;
             validation_results := validation_results |}
  end
  end.

(** What the client of the HTTP service receives. *)
Inductive response : Type :=
| Ok200 (body : ValidationResponse)
| Unprocessable422
| Error (status_code : Z) (detail : string).

(** FastAPI around the handler: the body's [document_text] is validated
    against [DocumentRequest] before the handler is entered, and an
    [HTTPException] becomes the response of its status code.  The result
    is the response and the calls made to the Gemini client. *)
Definition post_validate (services : Services) (text : string)
  : response * list call :=
  match DocumentRequest_validate text with
  | None => (Unprocessable422, [])
  | Some request =>
      match run (validate_document services request) with
      | (inr body, made) => (Ok200 body, made)
      | (inl (HTTPException status_code detail), made) =>
          (Error status_code detail, made)
      | (inl _, made) => (Error 500 "Internal Server Error", made)
      end
  end.

End Handler.

(** The handler of [GET /], the health check. *)
Definition root : list (string * string) :=
  [ ("service", "Mini Insurance Document Validator");
    ("status", "running");
    ("version", "1.0.0") ].

End Main.

(** ** [test_comprehensive.py] *)

Module TestComprehensive.

Import Py Date Models Validation Eff.
Import AiExtractor(AIExtractedData, AIExtractor, AIExtractor_init, reply,
                   extract_data_sync).
Local Open Scope eff_scope.

Record TestRunner : Type := {
  passed : Z;
  failed : Z;
  total : Z;
  extractor : AIExtractor;
  validator : DocumentValidator
}.

(** [TestRunner.__init__]: an exception of either constructor is printed and
    raised again. *)
Definition TestRunner_init (getenv : string -> option string)
    (read : string -> source) : exn + TestRunner :=
  match AIExtractor_init None getenv with
  | inl e => inl e
  | inr extractor =>
      match DocumentValidator_init default_valid_vessels_path read with
      | inl e => inl e
      | inr validator =>
          inr {| passed := 0; failed := 0; total := 0;
                 extractor := extractor; validator := validator |}
      end
  end.

(** What calling a test function does: it returns, an [assert] of it fails
    with a message (the empty one when the [assert] gives none), or another
    exception leaves it. *)
Inductive outcome : Type :=
| Returns
| AssertionError (msg : string)
| Raises (e : exn).

(** [assert cond, msg] as the last statement of a test function *)
Definition assert_ (cond : bool) (msg : string) : outcome :=
  if cond then Returns else AssertionError msg.

(** [run_test], for a test function that does [func] when called: the runner
    with its counters updated, and the value returned. *)
Definition run_test (self : TestRunner) (name : string) (func : outcome)
  : TestRunner * bool :=
  let total := total self + 1 in
  match func with
  | Returns =>
      ({| passed := passed self + 1; failed := failed self; total := total;
          extractor := extractor self; validator := validator self |}, true)
  | AssertionError _ =>
      ({| passed := passed self; failed := failed self + 1; total := total;
          extractor := extractor self; validator := validator self |}, false)
  | Raises _ =>
      ({| passed := passed self; failed := failed self + 1; total := total;
          extractor := extractor self; validator := validator self |}, false)
  end.

(** Calls of [run_test] one after the other, first to last. *)
Definition run_tests (self : TestRunner) (tests : list (string * outcome))
  : TestRunner :=
  fold_left (fun runner t => fst (run_test runner (fst t) (snd t))) tests self.

(** *** Suite 1: the validation rules *)

Definition test_date_valid (validator : DocumentValidator) : outcome :=
  let result :=
    validate_date_consistency (Some (Date.mk 2025 1 1))
                              (Some (Date.mk 2025 12 31)) in
  assert_ (status result =? "PASS")%string
          ("Expected PASS, got " ++ status result).

Definition test_date_invalid (validator : DocumentValidator) : outcome :=
  let result :=
    validate_date_consistency (Some (Date.mk 2025 12 31))
                              (Some (Date.mk 2025 1 1)) in
  assert_ (status result =? "FAIL")%string
          ("Expected FAIL, got " ++ status result).

Definition test_date_same (validator : DocumentValidator) : outcome :=
  let result :=
    validate_date_consistency (Some (Date.mk 2025 1 1))
                              (Some (Date.mk 2025 1 1)) in
  assert_ (status result =? "FAIL")%string "Same dates should fail".

Definition test_date_missing (validator : DocumentValidator) : outcome :=
  let result := validate_date_consistency None (Some (Date.mk 2025 1 1)) in
  assert_ (status result =? "FAIL")%string "".

Definition test_value_positive (validator : DocumentValidator) : outcome :=
  let result := validate_insured_value (Some 1000000) in
  assert_ (status result =? "PASS")%string "".

Definition test_value_zero (validator : DocumentValidator) : outcome :=
  let result := validate_insured_value (Some 0) in
  assert_ (status result =? "FAIL")%string "".

Definition test_value_negative (validator : DocumentValidator) : outcome :=
  let result := validate_insured_value (Some (-500)) in
  assert_ (status result =? "FAIL")%string "".

Definition test_value_none (validator : DocumentValidator) : outcome :=
  let result := validate_insured_value None in
  assert_ (status result =? "FAIL")%string "".

Definition test_vessel_valid (validator : DocumentValidator) : outcome :=
  let result := validate_vessel_name validator (Some "MV Neptune") in
  assert_ (status result =? "PASS")%string "".

Definition test_vessel_invalid (validator : DocumentValidator) : outcome :=
  let result := validate_vessel_name validator (Some "Unknown Ship") in
  assert_ (status result =? "FAIL")%string "".

Definition test_vessel_none (validator : DocumentValidator) : outcome :=
  let result := validate_vessel_name validator None in
  assert_ (status result =? "FAIL")%string "".

Definition test_vessel_empty (validator : DocumentValidator) : outcome :=
  let result := validate_vessel_name validator (Some "") in
  assert_ (status result =? "FAIL")%string "".

Definition test_policy_valid (validator : DocumentValidator) : outcome :=
  let result := validate_policy_number (Some "HM-2025-10-A4B") in
  assert_ (status result =? "PASS")%string "".

Definition test_policy_none (validator : DocumentValidator) : outcome :=
  let result := validate_policy_number None in
  assert_ (status result =? "FAIL")%string "".

Definition test_policy_empty (validator : DocumentValidator) : outcome :=
  let result := validate_policy_number (Some "") in
  assert_ (status result =? "FAIL")%string "".

(** [test_validation_rules], from the runner it builds to the runner it
    prints the summary of. *)
Definition test_validation_rules (runner : TestRunner) : TestRunner :=
  let validator := validator runner in
  run_tests runner
    [ ("Date consistency: Valid dates", test_date_valid validator);
      ("Date consistency: Reversed dates", test_date_invalid validator);
      ("Date consistency: Same dates", test_date_same validator);
      ("Date consistency: Missing start date", test_date_missing validator);
      ("Value check: Positive value", test_value_positive validator);
      ("Value check: Zero value", test_value_zero validator);
      ("Value check: Negative value", test_value_negative validator);
      ("Value check: None value", test_value_none validator);
      ("Vessel name: Valid vessel", test_vessel_valid validator);
      ("Vessel name: Invalid vessel", test_vessel_invalid validator);
      ("Vessel name: None", test_vessel_none validator);
      ("Vessel name: Empty string", test_vessel_empty validator);
      ("Policy number: Valid", test_policy_valid validator);
      ("Policy number: None", test_policy_none validator);
      ("Policy number: Empty string", test_policy_empty validator) ].

(** *** Suite 3: edge cases *)

Definition test_large_value (validator : DocumentValidator) : outcome :=
  let result := validate_insured_value (Some 999999999999) in
  assert_ (status result =? "PASS")%string "".

Definition test_one_day_apart (validator : DocumentValidator) : outcome :=
  let result :=
    validate_date_consistency (Some (Date.mk 2025 1 1))
                              (Some (Date.mk 2025 1 2)) in
  assert_ (status result =? "PASS")%string "".

Definition test_one_year_apart (validator : DocumentValidator) : outcome :=
  let result :=
    validate_date_consistency (Some (Date.mk 2025 1 1))
                              (Some (Date.mk 2026 1 1)) in
  assert_ (status result =? "PASS")%string "".

Definition vessels : list string :=
  [ "MV Neptune"; "Oceanic Voyager"; "Starlight Carrier"; "The Sea Serpent";
    "Ironclad Freighter" ].

Definition test_approved_vessel (validator : DocumentValidator)
    (vessel : string) : outcome :=
  let result := validate_vessel_name validator (Some vessel) in
  assert_ (status result =? "PASS")%string
          ("Approved vessel " ++ vessel ++ " should pass").

Definition test_policy_whitespace (validator : DocumentValidator) : outcome :=
  let result := validate_policy_number (Some "   ") in
  assert_ (status result =? "FAIL")%string "".

(** [test_edge_cases] *)
Definition test_edge_cases (runner : TestRunner) : TestRunner :=
  let validator := validator runner in
  let runner :=
    run_tests runner
      [ ("Very large insured value", test_large_value validator);
        ("Dates one day apart", test_one_day_apart validator);
        ("Dates exactly one year apart", test_one_year_apart validator) ] in
  let runner :=
    run_tests runner
      (map (fun vessel => ("Approved vessel: " ++ vessel,
                           test_approved_vessel validator vessel))
           vessels) in
  run_tests runner
    [ ("Policy number: Only whitespace", test_policy_whitespace validator) ].

(** *** Suite 2: documents through the extractor *)

(** [sum(1 for r in results if r.status == "PASS")] *)
Definition passed_count (results : list ValidationResult) : Z :=
  fold_left (fun n r => if (status r =? "PASS")%string then n + 1 else n)
            results 0.

Section Documents.

Variable gemini : call -> reply.
Variables prompt_head prompt_tail : string.

(** [date.fromisoformat]: [inl msg] where it raises [ValueError(msg)]. *)
Variable date_fromisoformat : string -> string + date.

(** The files under the working directory: the text of the file at a path,
    [None] where there is no file. *)
Variable files : string -> option string.

(** [date.fromisoformat(text) if text else None] *)
Definition date_if_given (text : option string) : M (option date) :=
  if truthy text
  then match text with
       | Some iso =>
           match date_fromisoformat iso with
           | inr d => ret (Some d)
           | inl msg => raise (ValueError msg)
           end
       | None => ret None
       end
  else ret None.

(** The conversion of the extractor's result that the tests make, without
    the handler's [try]. *)
Definition to_extracted (ai_result : option AIExtractedData)
  : M ExtractedData :=
  match ai_result with
  | None =>
      raise (AttributeError
               "'NoneType' object has no attribute 'policy_number'")
  | Some ai =>
      start_date <- date_if_given (AiExtractor.policy_start_date ai) ;;
      end_date <- date_if_given (AiExtractor.policy_end_date ai) ;;
      ret {| policy_number := AiExtractor.policy_number ai;
             vessel_name := AiExtractor.vessel_name ai;
             policy_start_date := start_date;
             policy_end_date := end_date;
             insured_value := AiExtractor.insured_value ai |}
  end.

(** [str(n)] for the count of failed validations *)
Definition failures (passed_count : Z) : string := str_of_int (4 - passed_count).

(** [test_doc] for one [(filename, should_pass, description)]. *)
Definition test_doc (runner : TestRunner) (filename : string)
    (should_pass : bool) : M outcome :=
  let path := "provided_assets/" ++ filename in
  match files path with
  | None => raise (FileNotFoundError ("Test file not found: " ++ filename))
  | Some doc_text =>
      ai_result <- extract_data_sync gemini prompt_head prompt_tail
                     (extractor runner) doc_text ;;
      extracted <- to_extracted ai_result ;;
      let results := validate_all (validator runner) extracted in
      let passed_count := passed_count results in
      let all_passed := passed_count =? 4 in
      if should_pass
      then ret (assert_ all_passed
                  ("Expected all validations to pass but "
                   ++ failures passed_count ++ " failed"))
      else ret (assert_ (negb all_passed)
                  "Expected some validations to fail but all passed")
  end.

(** What [run_test] sees when it calls a test function that runs [m], and
    the calls made by then. *)
Definition called (m : M outcome) (made : list call) : outcome * list call :=
  match m made with
  | (inl e, made') => (Raises e, made')
  | (inr o, made') => (o, made')
  end.

End Documents.

End TestComprehensive.

(** ** Notions the properties are stated with, and sample inputs *)

Module Spec.

Import Py Date Models Validation Eff Main.

(** [later a b]: the date [a] is strictly later than the date [b], year
    first, then month, then day. *)
Definition later (a b : date) : Prop :=
  year b < year a
  \/ (year a = year b
      /\ (month b < month a \/ (month a = month b /\ day b < day a))).

(** The vessels file is missing, is not JSON, or holds JSON that is not an
    array. *)
Definition unavailable (src : source) : Prop :=
  src = NoSuchFile
  \/ (exists msg doc pos, src = NotJSON msg doc pos)
  \/ (exists v, src = Loaded v /\ is_list v = false).

(** Every item of a decoded array is a string. *)
Definition all_strings (items : list json) : bool := forallb is_str items.

(** The call [extract_data_sync] makes for a document text. *)
Definition extraction_call (prompt_head prompt_tail text : string) : call :=
  {| model := "gemini-2.5-flash";
     contents := AiExtractor.format_prompt prompt_head prompt_tail text |}.

(** An environment with an API key and no vessels file. *)
Definition env_no_file : Env :=
  {| getenv := fun name =>
       if (name =? "GEMINI_API_KEY")%string then Some "secret" else None;
     read_json := fun _ => NoSuchFile |}.

(** The approved vessels of the tests. *)
Definition approved : list json :=
  [ JStr "MV Neptune"; JStr "Oceanic Voyager"; JStr "Starlight Carrier";
    JStr "The Sea Serpent"; JStr "Ironclad Freighter" ].

Definition sample_services : Services :=
  {| ai_extractor := Some {| AiExtractor.api_key := "secret" |};
     document_validator :=
       Some {| valid_vessels_path := default_valid_vessels_path;
               valid_vessels := approved |} |}.

(** A Gemini service that answers every call with one record. *)
Definition always (ai : AiExtractor.AIExtractedData)
  : call -> AiExtractor.reply :=
  fun _ => AiExtractor.Parsed (Some ai).

(** A record whose start date is no calendar date. *)
Definition bad_start : AiExtractor.AIExtractedData :=
  {| AiExtractor.policy_number := Some "HM-2025-10-A4B";
     AiExtractor.vessel_name := Some "MV Neptune";
     AiExtractor.policy_start_date := Some "2025-13-01";
     AiExtractor.policy_end_date := Some "2025-12-31";
     AiExtractor.insured_value := Some 5000000 |}.

(** The environment holds an API key that is not empty. *)
Definition key_given (env : Env) : bool :=
  truthy (getenv env "GEMINI_API_KEY").

(** The vessels file is there and its content is not a JSON array. *)
Definition malformed (src : source) : Prop :=
  (exists msg doc pos, src = NotJSON msg doc pos)
  \/ (exists v, src = Loaded v /\ is_list v = false).

(** The record satisfies all four rules. *)
Definition fully_valid (self : DocumentValidator) (d : ExtractedData) : Prop :=
  (exists s e, policy_start_date d = Some s /\ policy_end_date d = Some e
               /\ later e s)
  /\ (exists v, insured_value d = Some v /\ 0 < v)
  /\ (exists name, vessel_name d = Some name /\ strip name <> ""
                   /\ In (JStr name) (valid_vessels self))
  /\ (exists number, policy_number d = Some number /\ strip number <> "").

(** The part of a JSON error's text that tells where the error is. *)
Definition position_text (doc : string) (pos : Z) : string :=
  json_errmsg "" doc pos.

(** A parser that raises, as one that gives [None] where it raises. *)
Definition quiet {A : Type} (parse : string -> string + A)
  : string -> option A :=
  fun text => match parse text with inr a => Some a | inl _ => None end.

(** A date text is given and does not parse. *)
Definition unreadable_date (parse : string -> string + date)
    (text : option string) : Prop :=
  exists iso msg, text = Some iso /\ iso <> "" /\ parse iso = inl msg.

(** The test function returned, no assertion failed and nothing was
    raised. *)
Definition returned (o : TestComprehensive.outcome) : bool :=
  match o with
  | TestComprehensive.Returns => true
  | _ => false
  end.

(** The number of the tests that returned, and of those that did not. *)
Definition count_returned (tests : list (string * TestComprehensive.outcome))
  : Z :=
  Z.of_nat (List.length (filter (fun t => returned (snd t)) tests)).

Definition count_not_returned
    (tests : list (string * TestComprehensive.outcome)) : Z :=
  Z.of_nat (List.length (filter (fun t => negb (returned (snd t))) tests)).

(** The record the handler validates, for the extractor's record [ai]. *)
Definition handler_record (fromisoformat : string -> option date)
    (ai : AiExtractor.AIExtractedData) : ExtractedData :=
  {| policy_number := AiExtractor.policy_number ai;
     vessel_name := AiExtractor.vessel_name ai;
     policy_start_date :=
       parse_date fromisoformat (AiExtractor.policy_start_date ai);
     policy_end_date :=
       parse_date fromisoformat (AiExtractor.policy_end_date ai);
     insured_value := AiExtractor.insured_value ai |}.

(** A parser of [YYYY-MM-DD] that raises with the text it could not read. *)
Definition isoformat_parser (text : string) : string + date :=
  match Date.fromisoformat text with
  | Some d => inr d
  | None => inl ("Invalid isoformat string: '" ++ text ++ "'")
  end.

(** The record of a policy that satisfies all four rules. *)
Definition good_record : AiExtractor.AIExtractedData :=
  {| AiExtractor.policy_number := Some "HM-2025-10-A4B";
     AiExtractor.vessel_name := Some "MV Neptune";
     AiExtractor.policy_start_date := Some "2025-01-01";
     AiExtractor.policy_end_date := Some "2025-12-31";
     AiExtractor.insured_value := Some 5000000 |}.

(** A directory that holds the one sample document. *)
Definition sample_files (path : string) : option string :=
  if (path =? "provided_assets/sample_document_pass.txt")%string
  then Some "Policy HM-2025-10-A4B for the vessel MV Neptune"
  else None.

Definition sample_runner : TestComprehensive.TestRunner :=
  {| TestComprehensive.passed := 0; TestComprehensive.failed := 0;
     TestComprehensive.total := 0;
     TestComprehensive.extractor := {| AiExtractor.api_key := "secret" |};
     TestComprehensive.validator :=
       {| valid_vessels_path := default_valid_vessels_path;
          valid_vessels := approved |} |}.

End Spec.

(** * Properties *)

Import Py Date Models Validation Spec.

(** ** The definitions on the inputs of the tests *)

Example strip_inner_space : strip "  MV Neptune  " = "MV Neptune".
Proof. reflexivity. Qed.

Example strip_tabs_and_newlines :
  strip (String "009" (String "010" " ")) = "".
Proof. reflexivity. Qed.

Example fromisoformat_reads :
  Date.fromisoformat "2025-01-01" = Some (Date.mk 2025 1 1).
Proof. reflexivity. Qed.

Example fromisoformat_rejects :
  Date.fromisoformat "2025-13-01" = None
  /\ Date.fromisoformat "2025-02-29" = None
  /\ Date.fromisoformat "November 1st, 2025" = None.
Proof. repeat apply conj; reflexivity. Qed.

Example toordinal_of_2025 : toordinal (Date.mk 2025 1 1) = 739252.
Proof. reflexivity. Qed.

Example json_errmsg_first_line :
  json_errmsg "Expecting value" "not json" 0
  = "Expecting value: line 1 column 1 (char 0)".
Proof. reflexivity. Qed.

(** The passing and the failing record of the specification's scenarios. *)
Example scenario_all_pass :
  map status
    (validate_all
       {| valid_vessels_path := default_valid_vessels_path;
          valid_vessels := approved |}
       {| policy_number := Some "HM-2025-10-A4B";
          vessel_name := Some "MV Neptune";
          policy_start_date := Some (Date.mk 2025 1 1);
          policy_end_date := Some (Date.mk 2025 12 31);
          insured_value := Some 5000000 |})
  = ["PASS"; "PASS"; "PASS"; "PASS"].
Proof. reflexivity. Qed.

Example scenario_all_fail :
  map status
    (validate_all
       {| valid_vessels_path := default_valid_vessels_path;
          valid_vessels := approved |}
       {| policy_number := None;
          vessel_name := Some "Unknown Ship";
          policy_start_date := Some (Date.mk 2025 12 31);
          policy_end_date := Some (Date.mk 2025 1 1);
          insured_value := Some (-500) |})
  = ["FAIL"; "FAIL"; "FAIL"; "FAIL"].
Proof. reflexivity. Qed.

(** ** Trimming and membership *)

Section StripFacts.

Lemma all_space_lstrip (s : string) : all_space (lstrip s) = all_space s.
Proof.
  induction s as [|c s IH]; simpl; [reflexivity|].
  destruct (isspace c) eqn:Hc; simpl; [exact IH|].
  now rewrite Hc.
Qed.

Lemma rstrip_empty_iff (s : string) :
  rstrip s = "" <-> all_space s = true.
Proof.
  induction s as [|c s IH]; simpl; [tauto|].
  destruct (rstrip s) as [|r rs] eqn:Hr.
  - assert (Hs : all_space s = true) by now apply IH.
    rewrite Hs, andb_true_r.
    destruct (isspace c); split; congruence.
  - assert (Hs : all_space s = false).
    { destruct (all_space s); [|reflexivity].
      destruct IH as [_ IH]. now specialize (IH eq_refl). }
    rewrite Hs, andb_false_r. split; discriminate.
Qed.

Lemma strip_empty_iff (s : string) : strip s = "" <-> all_space s = true.
Proof.
  unfold strip. rewrite rstrip_empty_iff. now rewrite all_space_lstrip.
Qed.

Lemma strip_eqb_all_space (s : string) :
  (strip s =? "")%string = all_space s.
Proof.
  destruct (all_space s) eqn:Hs.
  - apply String.eqb_eq. now apply strip_empty_iff.
  - apply String.eqb_neq. intro H. apply strip_empty_iff in H. congruence.
Qed.

Lemma str_in_iff (s : string) (l : list json) :
  str_in s l = true <-> In (JStr s) l.
Proof.
  unfold str_in. rewrite existsb_exists. split.
  - intros [v [Hin Heq]]. destruct v; simpl in Heq; try discriminate.
    apply String.eqb_eq in Heq. now subst.
  - intros Hin. exists (JStr s). split; [exact Hin|].
    simpl. apply String.eqb_refl.
Qed.

End StripFacts.

(** ** The order of dates *)

Lemma gtb_later (a b : date) : gtb a b = true <-> later a b.
Proof.
  unfold gtb, later.
  rewrite orb_true_iff, andb_true_iff, orb_true_iff, andb_true_iff.
  rewrite !Z.ltb_lt, !Z.eqb_eq. tauto.
Qed.

Lemma later_irrefl (a : date) : ~ later a a.
Proof. unfold later. lia. Qed.

Lemma later_asym (a b : date) : later a b -> ~ later b a.
Proof. unfold later. lia. Qed.

Lemma later_trichotomy (a b : date) : later a b \/ a = b \/ later b a.
Proof.
  destruct a as [ya ma da], b as [yb mb db]. unfold later; simpl.
  destruct (Z.lt_trichotomy ya yb) as [H|[H|H]]; [lia| |lia].
  destruct (Z.lt_trichotomy ma mb) as [H1|[H1|H1]]; [lia| |lia].
  destruct (Z.lt_trichotomy da db) as [H2|[H2|H2]]; [lia| |lia].
  right; left. congruence.
Qed.

(** The order of the fields is the order of the days: between calendar dates,
    [later] compares the day numbers. *)

Lemma days_before_year_succ (y : Z) :
  days_before_year (y + 1)
  = days_before_year y + (if is_leap y then 366 else 365).
Proof.
  unfold days_before_year, is_leap. cbv zeta.
  replace (y + 1 - 1) with y by lia.
  destruct (Z.eqb_spec (y mod 4) 0), (Z.eqb_spec (y mod 100) 0),
    (Z.eqb_spec (y mod 400) 0); cbn [andb orb negb];
    Z.div_mod_to_equations; lia.
Qed.

Lemma days_before_year_mono (y1 y2 : Z) :
  y1 <= y2 -> days_before_year y1 <= days_before_year y2.
Proof.
  unfold days_before_year. cbv zeta. intros H.
  Z.div_mod_to_equations. lia.
Qed.

Lemma month_cases (m : Z) :
  1 <= m <= 12 ->
  m = 1 \/ m = 2 \/ m = 3 \/ m = 4 \/ m = 5 \/ m = 6
  \/ m = 7 \/ m = 8 \/ m = 9 \/ m = 10 \/ m = 11 \/ m = 12.
Proof. lia. Qed.

Ltac each_month m H :=
  destruct (month_cases m H)
    as [?|[?|[?|[?|[?|[?|[?|[?|[?|[?|[?|?]]]]]]]]]]]; subst m.

Lemma valid_bounds (d : date) :
  valid d = true ->
  1 <= month d <= 12 /\ 1 <= day d <= days_in_month (year d) (month d).
Proof.
  unfold valid. rewrite !andb_true_iff, !Z.leb_le. lia.
Qed.

Lemma month_end_before_next (y m m' : Z) :
  1 <= m <= 12 -> 1 <= m' <= 12 -> m < m' ->
  days_before_month y m + days_in_month y m <= days_before_month y m'.
Proof.
  intros H H' Hlt. each_month m H; each_month m' H'; try lia;
    unfold days_before_month, days_in_month; simpl;
    destruct (is_leap y); simpl; lia.
Qed.

Lemma year_end (y m : Z) :
  1 <= m <= 12 ->
  days_before_year y + days_before_month y m + days_in_month y m
  <= days_before_year (y + 1).
Proof.
  intros H. rewrite days_before_year_succ. each_month m H;
    unfold days_before_month, days_in_month; simpl;
    destruct (is_leap y); simpl; lia.
Qed.

Lemma days_before_month_nonneg (y m : Z) :
  1 <= m <= 12 -> 0 <= days_before_month y m.
Proof.
  intros H. each_month m H; unfold days_before_month; simpl;
    destruct (is_leap y); simpl; lia.
Qed.

Lemma later_toordinal (a b : date) :
  valid a = true -> valid b = true ->
  later a b -> toordinal b < toordinal a.
Proof.
  intros Ha Hb. apply valid_bounds in Ha, Hb. unfold toordinal.
  intros [H|[Hy [H|[Hm H]]]].
  - pose proof (year_end (year b) (month b) ltac:(lia)).
    pose proof (days_before_year_mono (year b + 1) (year a) ltac:(lia)).
    pose proof (days_before_month_nonneg (year a) (month a) ltac:(lia)).
    lia.
  - rewrite Hy in *.
    pose proof (month_end_before_next (year b) (month b) (month a)
                  ltac:(lia) ltac:(lia) H).
    lia.
  - rewrite Hy, Hm in *. lia.
Qed.

Lemma later_iff_toordinal (a b : date) :
  valid a = true -> valid b = true ->
  (later a b <-> toordinal b < toordinal a).
Proof.
  intros Ha Hb. split; [now apply later_toordinal|].
  intros Hlt. destruct (later_trichotomy a b) as [H|[H|H]].
  - exact H.
  - subst. lia.
  - apply (later_toordinal b a Hb Ha) in H. lia.
Qed.

(** ** The four rules *)

Lemma status_dates_present (s e : date) :
  status (validate_date_consistency (Some s) (Some e))
  = if gtb e s then "PASS" else "FAIL".
Proof. unfold validate_date_consistency. now destruct (gtb e s). Qed.

(** C2.  Date Consistency passes for every pair of dates whose end is
    strictly later than its start, and fails for equal dates, for an end
    date earlier than the start date, and whenever one of the two dates is
    absent; between calendar dates it passes exactly when the end date's day
    number is greater than the start date's. *)
Theorem date_consistency_status :
  (forall s e : date,
      later e s -> status (validate_date_consistency (Some s) (Some e)) = "PASS")
  /\ (forall s e : date,
      e = s -> status (validate_date_consistency (Some s) (Some e)) = "FAIL")
  /\ (forall s e : date,
      later s e -> status (validate_date_consistency (Some s) (Some e)) = "FAIL")
  /\ (forall e : option date,
      status (validate_date_consistency None e) = "FAIL")
  /\ (forall s : option date,
      status (validate_date_consistency s None) = "FAIL")
  /\ (forall s e : date,
      valid s = true -> valid e = true ->
      (status (validate_date_consistency (Some s) (Some e)) = "PASS"
       <-> toordinal s < toordinal e)).
Proof.
  split; [|split; [|split; [|split; [|split]]]].
  - intros s e H. apply gtb_later in H.
    now rewrite status_dates_present, H.
  - intros s e ->. rewrite status_dates_present.
    destruct (gtb s s) eqn:H; [|reflexivity].
    apply gtb_later in H. now apply later_irrefl in H.
  - intros s e H. rewrite status_dates_present.
    destruct (gtb e s) eqn:H'; [|reflexivity].
    apply gtb_later in H'. now apply later_asym in H.
  - intros e. reflexivity.
  - intros [s|]; reflexivity.
  - intros s e Hs He. rewrite status_dates_present.
    rewrite <- (later_iff_toordinal e s He Hs), <- gtb_later.
    destruct (gtb e s); split; congruence.
Qed.

Lemma date_consistency_status_witness :
  status (validate_date_consistency
            (Some (Date.mk 2025 1 1)) (Some (Date.mk 2025 12 31))) = "PASS"
  /\ status (validate_date_consistency
               (Some (Date.mk 2025 1 1)) (Some (Date.mk 2025 1 1))) = "FAIL"
  /\ status (validate_date_consistency
               (Some (Date.mk 2025 12 31)) (Some (Date.mk 2025 1 1))) = "FAIL"
  /\ status (validate_date_consistency
               (Some (Date.mk 2024 2 29)) (Some (Date.mk 2024 3 1))) = "PASS".
Proof.
  destruct date_consistency_status as [Hpass [Heq [Hrev [_ [_ Hord]]]]].
  split; [|split; [|split]].
  - apply Hpass. unfold later; simpl. lia.
  - apply Heq. reflexivity.
  - apply Hrev. unfold later; simpl. lia.
  - apply Hord; reflexivity.
Defined.

(** C3.  Value Check passes for every integer greater than zero, and fails
    for zero, for every negative integer and for an absent value. *)
Theorem insured_value_status :
  (forall v : Z, 0 < v -> status (validate_insured_value (Some v)) = "PASS")
  /\ status (validate_insured_value (Some 0)) = "FAIL"
  /\ (forall v : Z, v < 0 -> status (validate_insured_value (Some v)) = "FAIL")
  /\ status (validate_insured_value None) = "FAIL".
Proof.
  repeat apply conj.
  - intros v H. unfold validate_insured_value.
    apply Z.ltb_lt in H. now rewrite H.
  - reflexivity.
  - intros v H. unfold validate_insured_value.
    destruct (0 <? v) eqn:H'; [|reflexivity].
    apply Z.ltb_lt in H'. lia.
  - reflexivity.
Qed.

Lemma insured_value_status_witness :
  status (validate_insured_value (Some 5000000)) = "PASS"
  /\ status (validate_insured_value (Some (-500))) = "FAIL".
Proof.
  destruct insured_value_status as [Hpos [_ [Hneg _]]].
  split; [apply Hpos | apply Hneg]; lia.
Defined.

(** The message a name that is present and not blank gets when it is off the
    list is never the message of a missing name. *)
Lemma not_approved_message_differs (name : string) :
  ("Vessel '" ++ name ++ "' is not on the approved list.")%string
  <> "Vessel name is missing.".
Proof. simpl. discriminate. Qed.

Lemma status_vessel_present (self : DocumentValidator) (name : string) :
  strip name <> "" ->
  status (validate_vessel_name self (Some name))
  = if str_in name (valid_vessels self) then "PASS" else "FAIL".
Proof.
  intros H. apply String.eqb_neq in H.
  unfold validate_vessel_name. rewrite H.
  now destruct (str_in name (valid_vessels self)).
Qed.

(** C4.  Vessel Name Match fails for an absent name and for a name that trims
    to the empty string.  For any other name it passes if and only if the
    name as given, untrimmed, is a member of the approved list, and fails
    otherwise: a name that differs from its trimmed form and is not itself on
    the list fails even when the trimmed form is on the list. *)
Theorem vessel_name_status (self : DocumentValidator) :
  status (validate_vessel_name self None) = "FAIL"
  /\ (forall name : string,
      strip name = "" ->
      status (validate_vessel_name self (Some name)) = "FAIL")
  /\ (forall name : string,
      strip name <> "" ->
      (status (validate_vessel_name self (Some name)) = "PASS"
       <-> In (JStr name) (valid_vessels self))
      /\ (status (validate_vessel_name self (Some name)) = "FAIL"
          <-> ~ In (JStr name) (valid_vessels self)))
  /\ (forall name : string,
      strip name <> "" ->
      In (JStr (strip name)) (valid_vessels self) ->
      ~ In (JStr name) (valid_vessels self) ->
      status (validate_vessel_name self (Some name)) = "FAIL").
Proof.
  assert (Hpresent : forall name : string,
      strip name <> "" ->
      (status (validate_vessel_name self (Some name)) = "PASS"
       <-> In (JStr name) (valid_vessels self))
      /\ (status (validate_vessel_name self (Some name)) = "FAIL"
          <-> ~ In (JStr name) (valid_vessels self))).
  { intros name H. rewrite (status_vessel_present self name H).
    rewrite <- str_in_iff.
    destruct (str_in name (valid_vessels self)); split; split;
      intros; congruence. }
  repeat apply conj.
  - reflexivity.
  - intros name H. apply String.eqb_eq in H.
    unfold validate_vessel_name. now rewrite H.
  - exact Hpresent.
  - intros name H _ Hout. now apply (Hpresent name H).
Qed.

Lemma vessel_name_status_witness :
  let self := {| valid_vessels_path := default_valid_vessels_path;
                 valid_vessels := [JStr "MV Neptune"; JStr "Oceanic Voyager"] |} in
  status (validate_vessel_name self (Some "   ")) = "FAIL"
  /\ status (validate_vessel_name self (Some "MV Neptune")) = "PASS"
  /\ status (validate_vessel_name self (Some "mv neptune")) = "FAIL"
  /\ status (validate_vessel_name self (Some " MV Neptune ")) = "FAIL".
Proof.
  intros self.
  destruct (vessel_name_status self) as [_ [Hblank [Hpresent Htrim]]].
  repeat apply conj.
  - apply Hblank. reflexivity.
  - apply (Hpresent "MV Neptune"); [discriminate|]. simpl. tauto.
  - apply (Hpresent "mv neptune"); [discriminate|].
    simpl. intros [H|[H|[]]]; discriminate.
  - apply Htrim; [discriminate| simpl; tauto |].
    simpl. intros [H|[H|[]]]; discriminate.
Defined.

(** C5.  Completeness Check passes for every policy number that is present
    and not empty after trimming, and fails for an absent, an empty and a
    whitespace-only policy number. *)
Theorem policy_number_status :
  (forall number : string,
      strip number <> "" ->
      status (validate_policy_number (Some number)) = "PASS")
  /\ status (validate_policy_number None) = "FAIL"
  /\ status (validate_policy_number (Some "")) = "FAIL"
  /\ (forall number : string,
      all_space number = true ->
      status (validate_policy_number (Some number)) = "FAIL").
Proof.
  repeat apply conj.
  - intros number H. apply String.eqb_neq in H.
    unfold validate_policy_number. now rewrite H.
  - reflexivity.
  - reflexivity.
  - intros number H. unfold validate_policy_number.
    now rewrite strip_eqb_all_space, H.
Qed.

Lemma policy_number_status_witness :
  status (validate_policy_number (Some "HM-2025-10-A4B")) = "PASS"
  /\ status (validate_policy_number (Some "   ")) = "FAIL".
Proof.
  destruct policy_number_status as [Hpass [_ [_ Hblank]]].
  split; [apply Hpass; discriminate | apply Hblank; reflexivity].
Defined.

(** C6, as the code has it.  A vessel name that is present but empty after
    trimming gets the very outcome of an absent name, rule, status and the
    one message "Vessel name is missing.", so that the rule's outcome does
    not tell the two causes apart; every failure of a name that is not blank
    carries another message. *)
Theorem blank_vessel_name_same_outcome (self : DocumentValidator)
    (name : string) :
  strip name = "" ->
  validate_vessel_name self (Some name) = validate_vessel_name self None
  /\ message (validate_vessel_name self (Some name)) = "Vessel name is missing."
  /\ forall other : string,
      strip other <> "" ->
      status (validate_vessel_name self (Some other)) = "FAIL" ->
      message (validate_vessel_name self (Some other))
      <> message (validate_vessel_name self (Some name)).
Proof.
  intros H. apply String.eqb_eq in H.
  assert (Hsame : validate_vessel_name self (Some name)
                  = validate_vessel_name self None).
  { unfold validate_vessel_name. now rewrite H. }
  rewrite Hsame. repeat apply conj.
  - reflexivity.
  - reflexivity.
  - intros other Ho. apply String.eqb_neq in Ho.
    unfold validate_vessel_name. rewrite Ho.
    destruct (str_in other (valid_vessels self)); cbn [status message].
    + discriminate.
    + intros _. apply not_approved_message_differs.
Qed.

Lemma blank_vessel_name_same_outcome_witness :
  let self := {| valid_vessels_path := default_valid_vessels_path;
                 valid_vessels := [JStr "MV Neptune"] |} in
  validate_vessel_name self (Some "  ") = validate_vessel_name self None.
Proof.
  intros self. apply (blank_vessel_name_same_outcome self "  "). reflexivity.
Defined.

(** C6 as stated fails: for the blank name of two spaces the message is the
    message of the absent name. *)
Lemma blank_vessel_name_message_not_distinct :
  let self := {| valid_vessels_path := default_valid_vessels_path;
                 valid_vessels := [JStr "MV Neptune"] |} in
  strip "  " = ""
  /\ status (validate_vessel_name self (Some "  ")) = "FAIL"
  /\ status (validate_vessel_name self None) = "FAIL"
  /\ ~ (message (validate_vessel_name self (Some "  "))
        <> message (validate_vessel_name self None)).
Proof.
  intros self. repeat apply conj; try reflexivity.
  intros H. apply H. reflexivity.
Qed.

(** C1.  [validate_all] returns exactly four results, named Date Consistency,
    Value Check, Vessel Name Match and Completeness Check in this order,
    whatever the record holds; each is the result of its rule on that rule's
    fields of the record, so it stays the same when every other field of the
    record is replaced. *)
Theorem validate_all_four_rules (self : DocumentValidator) (d : ExtractedData) :
  validate_all self d
  = [ validate_date_consistency (policy_start_date d) (policy_end_date d);
      validate_insured_value (insured_value d);
      validate_vessel_name self (vessel_name d);
      validate_policy_number (policy_number d) ]
  /\ List.length (validate_all self d) = 4%nat
  /\ map rule (validate_all self d)
     = [ "Date Consistency"; "Value Check"; "Vessel Name Match";
         "Completeness Check" ]
  /\ forall (p v : option string) (s e : option date) (i : option Z),
      nth_error (validate_all self d) 0
      = nth_error (validate_all self
          {| policy_number := p; vessel_name := v;
             policy_start_date := policy_start_date d;
             policy_end_date := policy_end_date d; insured_value := i |}) 0
      /\ nth_error (validate_all self d) 1
         = nth_error (validate_all self
             {| policy_number := p; vessel_name := v; policy_start_date := s;
                policy_end_date := e; insured_value := insured_value d |}) 1
      /\ nth_error (validate_all self d) 2
         = nth_error (validate_all self
             {| policy_number := p; vessel_name := vessel_name d;
                policy_start_date := s; policy_end_date := e;
                insured_value := i |}) 2
      /\ nth_error (validate_all self d) 3
         = nth_error (validate_all self
             {| policy_number := policy_number d; vessel_name := v;
                policy_start_date := s; policy_end_date := e;
                insured_value := i |}) 3.
Proof.
  assert (Hrules :
    map rule (validate_all self d)
    = [ "Date Consistency"; "Value Check"; "Vessel Name Match";
        "Completeness Check" ]).
  { unfold validate_all, append. cbn [app map]. repeat f_equal.
    - unfold validate_date_consistency.
      destruct (policy_start_date d), (policy_end_date d);
        try reflexivity.
      now destruct (gtb _ _).
    - unfold validate_insured_value.
      destruct (insured_value d); [|reflexivity]. now destruct (0 <? _).
    - unfold validate_vessel_name.
      destruct (vessel_name d) as [name|]; [|reflexivity].
      destruct (strip name =? "")%string; [reflexivity|].
      now destruct (str_in _ _).
    - unfold validate_policy_number.
      destruct (policy_number d) as [number|]; [|reflexivity].
      now destruct (strip number =? "")%string. }
  repeat apply conj; try reflexivity.
  - exact Hrules.
  - intros p v s e i. repeat apply conj; reflexivity.
Qed.

(** ** The vessel list loader *)

(** X5.  The loader returns normally exactly when the file was decoded to a
    JSON array, whose items it returns as they are, and it raises
    [FileNotFoundError] exactly when the file is missing, with a message that
    names the path.  On a file that is not JSON it raises a
    [JSONDecodeError] with the decoder's document and position, and on
    decoded JSON that is not an array it raises the [ValueError] that asks
    for a JSON array; these two errors are of the class [ValueError], the
    error of a missing file is not. *)
Lemma load_valid_vessels_outcomes (path : string) (src : source) :
  (forall items, _load_valid_vessels path src = inr items
                 <-> src = Loaded (JList items))
  /\ ((exists msg, _load_valid_vessels path src = inl (FileNotFoundError msg))
      <-> src = NoSuchFile)
  /\ (src = NoSuchFile ->
      _load_valid_vessels path src
      = inl (FileNotFoundError ("Valid vessels file not found at: " ++ path)))
  /\ (forall msg doc pos,
        src = NotJSON msg doc pos ->
        exists text,
          _load_valid_vessels path src = inl (JSONDecodeError text doc pos)
          /\ is_ValueError (JSONDecodeError text doc pos) = true
          /\ is_FileNotFoundError (JSONDecodeError text doc pos) = false)
  /\ (forall v,
        src = Loaded v -> is_list v = false ->
        _load_valid_vessels path src
        = inl (ValueError "Valid vessels file must contain a JSON array")).
Proof.
  split; [|split; [|split; [|split]]].
  - intros items. destruct src as [| |msg doc pos|v]; simpl;
      try (split; discriminate).
    destruct v; simpl; split; congruence.
  - destruct src as [| |msg doc pos|v]; simpl.
    + split; [reflexivity | intros _; eexists; reflexivity].
    + split; [intros [m H]; discriminate | discriminate].
    + split; [intros [m H]; discriminate | discriminate].
    + split; [intros [m H]; destruct v; discriminate | discriminate].
  - intros ->. reflexivity.
  - intros msg doc pos ->. eexists. repeat split.
  - intros v -> Hv. destruct v; try reflexivity. discriminate.
Qed.

(** C9.  On a vessels file that holds the array [[1, "MV Neptune"]] the
    loader returns normally, and what it returns is not a collection of
    strings: the number is among the items. *)
Theorem load_valid_vessels_keeps_non_strings :
  _load_valid_vessels default_valid_vessels_path
    (Loaded (JList [JInt 1; JStr "MV Neptune"]))
  = inr [JInt 1; JStr "MV Neptune"]
  /\ all_strings [JInt 1; JStr "MV Neptune"] = false
  /\ In (JInt 1) [JInt 1; JStr "MV Neptune"].
Proof. repeat apply conj; [reflexivity | reflexivity | now left]. Qed.

(** ** Start-up *)

Import Eff Main.

Lemma AIExtractor_init_raises (api_key : option string)
    (getenv : string -> option string) (e : exn) :
  AiExtractor.AIExtractor_init api_key getenv = inl e -> is_ValueError e = true.
Proof.
  unfold AiExtractor.AIExtractor_init.
  destruct (if truthy api_key then api_key else getenv "GEMINI_API_KEY")
    as [key|]; [destruct (key =? "")%string|]; intros H; inversion H;
    reflexivity.
Qed.

Lemma DocumentValidator_init_unavailable (path : string)
    (read : string -> source) :
  unavailable (read path) ->
  exists e, DocumentValidator_init path read = inl e
            /\ (is_ValueError e = true \/ is_FileNotFoundError e = true).
Proof.
  unfold DocumentValidator_init.
  intros [H|[[msg [doc [pos H]]]|[v [H Hv]]]]; rewrite H; simpl.
  - eexists. split; [reflexivity | now right].
  - eexists. split; [reflexivity | now left].
  - destruct v; try discriminate; eexists; (split; [reflexivity | now left]).
Qed.

Lemma on_init_error_starts (extractor : option AiExtractor.AIExtractor)
    (e : exn) :
  is_ValueError e = true \/ is_FileNotFoundError e = true ->
  exists services, on_init_error extractor e = inr services
                   /\ document_validator services = None.
Proof.
  unfold on_init_error. intros [H|H].
  - rewrite H. eexists. split; reflexivity.
  - rewrite H. destruct (is_ValueError e); eexists; split; reflexivity.
Qed.

(** C7 as stated fails: with an API key and no vessels file the validator's
    initialisation raises, and yet start-up does not abort, the service
    starts with the extractor bound and no validator. *)
Lemma startup_survives_missing_vessels_file :
  read_json env_no_file default_valid_vessels_path = NoSuchFile
  /\ DocumentValidator_init default_valid_vessels_path (read_json env_no_file)
     = inl (FileNotFoundError
        "Valid vessels file not found at: provided_assets/valid_vessels.json")
  /\ startup env_no_file
     = inr {| ai_extractor := Some {| AiExtractor.api_key := "secret" |};
              document_validator := None |}
  /\ ~ (exists e, startup env_no_file = inl e).
Proof.
  repeat apply conj; try reflexivity.
  intros [e H]. discriminate.
Qed.

(** ** The handler of [/validate] *)

Section HandlerFacts.

Variable gemini : call -> AiExtractor.reply.
Variables prompt_head prompt_tail : string.
Variable fromisoformat : string -> option date.

Local Abbreviation handler :=
  (validate_document gemini prompt_head prompt_tail fromisoformat).
Local Abbreviation post :=
  (post_validate gemini prompt_head prompt_tail fromisoformat).
Local Abbreviation sent text := (extraction_call prompt_head prompt_tail text).

(** Without a validator the handler answers 503 and calls nobody. *)
Lemma handler_without_validator (services : Services)
    (request : DocumentRequest) :
  document_validator services = None ->
  exists detail,
    run (handler services request) = (inl (HTTPException 503 detail), []).
Proof.
  intros H. unfold validate_document. rewrite H.
  destruct (ai_extractor services); eexists; reflexivity.
Qed.

(** With both services bound the handler makes one call, for the text of
    the request as it came, and its result follows from the reply. *)
Lemma handler_with_services (services : Services)
    (extractor : AiExtractor.AIExtractor) (validator : DocumentValidator)
    (request : DocumentRequest) :
  ai_extractor services = Some extractor ->
  document_validator services = Some validator ->
  run (handler services request)
  = match gemini (sent (document_text request)) with
    | AiExtractor.Raises e =>
        (inl (HTTPException 500
                ("AI extraction failed: AI extraction failed: "
                 ++ str_of_exn e)),
         [sent (document_text request)])
    | AiExtractor.Parsed None =>
        (inl (HTTPException 500
                "AI extraction failed: 'NoneType' object has no attribute 'policy_start_date'"),
         [sent (document_text request)])
    | AiExtractor.Parsed (Some ai) =>
        let data :=
          {| policy_number := AiExtractor.policy_number ai;
             vessel_name := AiExtractor.vessel_name ai;
             policy_start_date :=
               parse_date fromisoformat (AiExtractor.policy_start_date ai);
             policy_end_date :=
               parse_date fromisoformat (AiExtractor.policy_end_date ai);
             insured_value := AiExtractor.insured_value ai |} in
        (inr {| extracted_data := data;
                validation_results := validate_all validator data |},
         [sent (document_text request)])
    end.
Proof.
  intros Hx Hv.
  unfold run, validate_document, AiExtractor.extract_data_sync,
    AiExtractor.generate_content, try_except, bind, ret, raise,
    extraction_call.
  rewrite Hx, Hv.
  destruct (gemini _) as [e|[ai|]]; reflexivity.
Qed.

Lemma parse_date_failure (iso : string) :
  fromisoformat iso = None -> parse_date fromisoformat (Some iso) = None.
Proof.
  intros H. unfold parse_date. rewrite H. now destruct (truthy (Some iso)).
Qed.

Lemma parse_date_success (iso : string) (d : date) :
  iso <> "" -> fromisoformat iso = Some d ->
  parse_date fromisoformat (Some iso) = Some d.
Proof.
  intros Hne H. unfold parse_date, truthy.
  apply String.eqb_neq in Hne. now rewrite Hne, H.
Qed.

(** C7, as the code has it.  When the vessels file is missing, is not JSON
    or is not a JSON array, the validator's initialisation raises; start-up
    catches the error and the service starts with no validator bound.  From
    then on no request is validated: the handler answers every request it
    is given with status 503, before any call of the extractor and without
    running a rule, so that a request to [/validate] is answered 422 when
    its text is empty and 503 otherwise, with no call made. *)
Theorem vessels_unavailable_service_refuses (env : Env) :
  unavailable (read_json env default_valid_vessels_path) ->
  (exists e,
      DocumentValidator_init default_valid_vessels_path (read_json env)
      = inl e)
  /\ exists services,
      startup env = inr services
      /\ document_validator services = None
      /\ (forall request, exists detail,
            run (handler services request)
            = (inl (HTTPException 503 detail), []))
      /\ post services "" = (Unprocessable422, [])
      /\ (forall text,
            text <> "" ->
            exists detail, post services text = (Error 503 detail, [])).
Proof.
  intros H.
  destruct (DocumentValidator_init_unavailable _ _ H) as [e [He Hclass]].
  split; [now exists e|].
  assert (Hstart : exists services,
             startup env = inr services
             /\ document_validator services = None).
  { unfold startup.
    destruct (AiExtractor.AIExtractor_init None (getenv env))
      as [e0|extractor] eqn:Hinit.
    - apply on_init_error_starts. left.
      now apply (AIExtractor_init_raises None (getenv env)).
    - rewrite He. now apply on_init_error_starts. }
  destruct Hstart as [services [Hs Hv]].
  exists services. repeat apply conj; try assumption.
  - intros request. now apply handler_without_validator.
  - reflexivity.
  - intros [|c text] Hne; [congruence|].
    destruct (handler_without_validator services
                {| document_text := String c text |} Hv) as [detail Hd].
    exists detail. unfold post_validate.
    change (DocumentRequest_validate (String c text))
      with (Some {| document_text := String c text |}).
    cbv beta iota. now rewrite Hd.
Qed.

(** C8.  When the extractor returns a record, the handler answers with a
    body whatever its date strings are: a date string that does not parse
    gives an absent date, a date string that parses gives its date, the
    policy number, the vessel name and the insured value are those of the
    extractor's record, and the results are the four results of
    [validate_all] on the record so obtained. *)
Theorem unparsable_date_treated_as_absent (services : Services)
    (extractor : AiExtractor.AIExtractor) (validator : DocumentValidator)
    (request : DocumentRequest) (ai : AiExtractor.AIExtractedData) :
  ai_extractor services = Some extractor ->
  document_validator services = Some validator ->
  gemini (sent (document_text request)) = AiExtractor.Parsed (Some ai) ->
  exists body,
    fst (run (handler services request)) = inr body
    /\ (forall iso,
          AiExtractor.policy_start_date ai = Some iso ->
          fromisoformat iso = None ->
          policy_start_date (extracted_data body) = None)
    /\ (forall iso,
          AiExtractor.policy_end_date ai = Some iso ->
          fromisoformat iso = None ->
          policy_end_date (extracted_data body) = None)
    /\ (forall iso d,
          AiExtractor.policy_start_date ai = Some iso ->
          iso <> "" -> fromisoformat iso = Some d ->
          policy_start_date (extracted_data body) = Some d)
    /\ (forall iso d,
          AiExtractor.policy_end_date ai = Some iso ->
          iso <> "" -> fromisoformat iso = Some d ->
          policy_end_date (extracted_data body) = Some d)
    /\ policy_number (extracted_data body) = AiExtractor.policy_number ai
    /\ vessel_name (extracted_data body) = AiExtractor.vessel_name ai
    /\ insured_value (extracted_data body) = AiExtractor.insured_value ai
    /\ validation_results body
       = validate_all validator (extracted_data body)
    /\ List.length (validation_results body) = 4%nat.
Proof.
  intros Hx Hv Hreply.
  rewrite (handler_with_services services extractor validator request Hx Hv).
  rewrite Hreply. cbv zeta. eexists. split; [reflexivity|].
  cbn [extracted_data validation_results policy_number vessel_name
       policy_start_date policy_end_date insured_value].
  repeat apply conj; try reflexivity.
  - intros iso -> Hp. now apply parse_date_failure.
  - intros iso -> Hp. now apply parse_date_failure.
  - intros iso d -> Hne Hp. now apply parse_date_success.
  - intros iso d -> Hne Hp. now apply parse_date_success.
Qed.

(** C10.  The request model accepts every text of length at least one,
    whitespace-only texts among them, and rejects only the empty text; with
    both services bound, an accepted text is sent to the extractor exactly
    as it came, and the empty text is answered 422 with no call made. *)
Theorem document_text_accepted :
  (forall text,
      (1 <= String.length text)%nat ->
      DocumentRequest_validate text = Some {| document_text := text |})
  /\ (forall text, DocumentRequest_validate text = None <-> text = "")
  /\ (forall text,
        text <> "" -> all_space text = true ->
        DocumentRequest_validate text = Some {| document_text := text |})
  /\ (forall services extractor validator text,
        ai_extractor services = Some extractor ->
        document_validator services = Some validator ->
        (1 <= String.length text)%nat ->
        snd (post services text) = [sent text])
  /\ (forall services, post services "" = (Unprocessable422, [])).
Proof.
  assert (Haccept : forall text,
             text <> "" ->
             DocumentRequest_validate text
             = Some {| document_text := text |}).
  { intros [|c text] H; [congruence | reflexivity]. }
  assert (Hlen : forall text, (1 <= String.length text)%nat -> text <> "").
  { intros [|c text]; simpl; [lia | discriminate]. }
  split; [|split; [|split; [|split]]].
  - intros text H. apply Haccept, Hlen, H.
  - intros [|c text]; split; try reflexivity; discriminate.
  - intros text H _. now apply Haccept.
  - intros services extractor validator text Hx Hv H.
    unfold post_validate. rewrite (Haccept text (Hlen text H)).
    rewrite (handler_with_services services extractor validator _ Hx Hv).
    cbn [document_text].
    destruct (gemini _) as [e|[ai|]]; reflexivity.
  - intros services. reflexivity.
Qed.

End HandlerFacts.

Lemma vessels_unavailable_service_refuses_witness :
  exists services,
    startup env_no_file = inr services
    /\ document_validator services = None
    /\ (forall request, exists detail,
          run (validate_document (always bad_start) "" "" Date.fromisoformat
                 services request)
          = (inl (HTTPException 503 detail), []))
    /\ post_validate (always bad_start) "" "" Date.fromisoformat services ""
       = (Unprocessable422, [])
    /\ (forall text,
          text <> "" ->
          exists detail,
            post_validate (always bad_start) "" "" Date.fromisoformat
              services text
            = (Error 503 detail, [])).
Proof.
  apply (vessels_unavailable_service_refuses
           (always bad_start) "" "" Date.fromisoformat env_no_file).
  left. reflexivity.
Defined.

Lemma unparsable_date_treated_as_absent_witness :
  exists body,
    fst (run (validate_document (always bad_start) "Document: " ""
                Date.fromisoformat sample_services
                {| document_text := "policy text" |})) = inr body
    /\ policy_start_date (extracted_data body) = None
    /\ policy_end_date (extracted_data body) = Some (Date.mk 2025 12 31)
    /\ List.length (validation_results body) = 4%nat.
Proof.
  destruct (unparsable_date_treated_as_absent
              (always bad_start) "Document: " "" Date.fromisoformat
              sample_services {| AiExtractor.api_key := "secret" |}
              {| valid_vessels_path := default_valid_vessels_path;
                 valid_vessels := approved |}
              {| document_text := "policy text" |} bad_start
              eq_refl eq_refl eq_refl)
    as [body [Hrun [Hstart [_ [_ [Hend [_ [_ [_ [_ Hlen]]]]]]]]]].
  exists body. repeat apply conj.
  - exact Hrun.
  - apply (Hstart "2025-13-01"); reflexivity.
  - apply (Hend "2025-12-31"); [reflexivity | discriminate | reflexivity].
  - exact Hlen.
Defined.

Lemma document_text_accepted_witness :
  DocumentRequest_validate "   " = Some {| document_text := "   " |}
  /\ snd (post_validate (always bad_start) "Document: " "" Date.fromisoformat
            sample_services "   ")
     = [extraction_call "Document: " "" "   "].
Proof.
  destruct (document_text_accepted (always bad_start) "Document: " ""
              Date.fromisoformat) as [Hlen [_ [_ [Hsent _]]]].
  split.
  - apply Hlen. simpl. lia.
  - apply (Hsent sample_services {| AiExtractor.api_key := "secret" |}
             {| valid_vessels_path := default_valid_vessels_path;
                valid_vessels := approved |});
      [reflexivity | reflexivity | simpl; lia].
Defined.

(** * More of the code *)

(** ** The four rules together *)

Lemma validate_all_results (self : DocumentValidator) (d : ExtractedData) :
  validate_all self d
  = [ validate_date_consistency (policy_start_date d) (policy_end_date d);
      validate_insured_value (insured_value d);
      validate_vessel_name self (vessel_name d);
      validate_policy_number (policy_number d) ].
Proof. reflexivity. Qed.

Lemma date_pass_iff (s e : option date) :
  status (validate_date_consistency s e) = "PASS"
  <-> exists a b, s = Some a /\ e = Some b /\ later b a.
Proof.
  destruct s as [a|], e as [b|];
    try (simpl; split;
         [discriminate | intros [x [y [H1 [H2 _]]]]; discriminate]).
  rewrite status_dates_present. split.
  - destruct (gtb b a) eqn:H; [|discriminate].
    intros _. exists a, b. repeat split. now apply gtb_later.
  - intros [x [y [H1 [H2 H]]]]. inversion H1; inversion H2; subst.
    apply gtb_later in H. now rewrite H.
Qed.

Lemma value_pass_iff (v : option Z) :
  status (validate_insured_value v) = "PASS"
  <-> exists n, v = Some n /\ 0 < n.
Proof.
  destruct v as [n|]; simpl.
  - destruct (Z.ltb_spec 0 n); simpl; split.
    + intros _. now exists n.
    + reflexivity.
    + discriminate.
    + intros [m [H1 H2]]. inversion H1; subst. lia.
  - split; [discriminate | intros [m [H _]]; discriminate].
Qed.

Lemma vessel_pass_iff (self : DocumentValidator) (v : option string) :
  status (validate_vessel_name self v) = "PASS"
  <-> exists name, v = Some name /\ strip name <> ""
                   /\ In (JStr name) (valid_vessels self).
Proof.
  destruct v as [name|]; simpl.
  - destruct (String.eqb_spec (strip name) "") as [Hb|Hb]; simpl.
    + split; [discriminate|].
      intros [n [H1 [H2 _]]]. inversion H1; subst. contradiction.
    + destruct (str_in name (valid_vessels self)) eqn:Hin; simpl; split.
      * intros _. exists name. repeat split; [exact Hb|].
        now apply str_in_iff.
      * reflexivity.
      * discriminate.
      * intros [n [H1 [_ H3]]]. inversion H1; subst.
        apply str_in_iff in H3. congruence.
  - split; [discriminate | intros [n [H _]]; discriminate].
Qed.

Lemma policy_pass_iff (v : option string) :
  status (validate_policy_number v) = "PASS"
  <-> exists number, v = Some number /\ strip number <> "".
Proof.
  destruct v as [number|]; simpl.
  - destruct (String.eqb_spec (strip number) "") as [Hb|Hb]; simpl; split.
    + discriminate.
    + intros [n [H1 H2]]. inversion H1; subst. contradiction.
    + intros _. now exists number.
    + reflexivity.
  - split; [discriminate | intros [n [H _]]; discriminate].
Qed.

Lemma rule_statuses (self : DocumentValidator) (d : ExtractedData) :
  (status (validate_date_consistency (policy_start_date d) (policy_end_date d))
   = "PASS"
   \/ status (validate_date_consistency (policy_start_date d)
                                        (policy_end_date d)) = "FAIL")
  /\ (status (validate_insured_value (insured_value d)) = "PASS"
      \/ status (validate_insured_value (insured_value d)) = "FAIL")
  /\ (status (validate_vessel_name self (vessel_name d)) = "PASS"
      \/ status (validate_vessel_name self (vessel_name d)) = "FAIL")
  /\ (status (validate_policy_number (policy_number d)) = "PASS"
      \/ status (validate_policy_number (policy_number d)) = "FAIL").
Proof.
  split; [|split; [|split]].
  - destruct (policy_start_date d) as [a|], (policy_end_date d) as [b|];
      try (simpl; now auto).
    rewrite status_dates_present. destruct (gtb b a); auto.
  - destruct (insured_value d) as [n|]; simpl; auto.
    destruct (0 <? n); auto.
  - destruct (vessel_name d) as [name|]; simpl; auto.
    destruct (strip name =? "")%string; auto.
    destruct (str_in name (valid_vessels self)); auto.
  - destruct (policy_number d) as [number|]; simpl; auto.
    destruct (strip number =? "")%string; auto.
Qed.

(** X1.  Every result of [validate_all] has the status PASS or the status
    FAIL, and no other string. *)
Theorem validate_all_statuses (self : DocumentValidator) (d : ExtractedData) :
  Forall (fun r => status r = "PASS" \/ status r = "FAIL")
         (validate_all self d).
Proof.
  rewrite validate_all_results.
  destruct (rule_statuses self d) as [H1 [H2 [H3 H4]]].
  apply Forall_cons; [exact H1|]. apply Forall_cons; [exact H2|].
  apply Forall_cons; [exact H3|]. apply Forall_cons; [exact H4|].
  apply Forall_nil.
Qed.

Lemma passed_count_four (r1 r2 r3 r4 : ValidationResult) :
  TestComprehensive.passed_count [r1; r2; r3; r4] = 4
  <-> status r1 = "PASS" /\ status r2 = "PASS"
      /\ status r3 = "PASS" /\ status r4 = "PASS".
Proof.
  unfold TestComprehensive.passed_count. simpl.
  destruct (String.eqb_spec (status r1) "PASS"),
           (String.eqb_spec (status r2) "PASS"),
           (String.eqb_spec (status r3) "PASS"),
           (String.eqb_spec (status r4) "PASS");
    split; try tauto; try lia; intros H; exfalso; simpl in H; lia.
Qed.

Lemma passed_count_validate_all (self : DocumentValidator)
    (d : ExtractedData) :
  TestComprehensive.passed_count (validate_all self d) = 4
  <-> fully_valid self d.
Proof.
  rewrite validate_all_results.
  rewrite passed_count_four, date_pass_iff, value_pass_iff,
    vessel_pass_iff, policy_pass_iff.
  unfold fully_valid. reflexivity.
Qed.

(** X2.  The count of PASS results the tests take of [validate_all] is 4
    exactly for a record with both dates present and the end date later than
    the start date, a positive insured value, a vessel name that is not blank
    and is on the approved list, and a policy number that is not blank; it
    is never more than 4 and never negative. *)
Theorem all_passed_iff_fully_valid (self : DocumentValidator)
    (d : ExtractedData) :
  (TestComprehensive.passed_count (validate_all self d) = 4
   <-> fully_valid self d)
  /\ 0 <= TestComprehensive.passed_count (validate_all self d) <= 4.
Proof.
  split; [apply passed_count_validate_all|].
  rewrite validate_all_results.
  unfold TestComprehensive.passed_count. simpl.
  repeat match goal with
         | |- context [if ?b then _ else _] => destruct b
         end; lia.
Qed.

Lemma str_in_same_members (l1 l2 : list json) (name : string) :
  (forall s, In (JStr s) l1 <-> In (JStr s) l2) ->
  str_in name l1 = str_in name l2.
Proof.
  intros H. destruct (str_in name l2) eqn:H2.
  - apply str_in_iff. apply H. now apply str_in_iff.
  - destruct (str_in name l1) eqn:H1; [|reflexivity].
    apply str_in_iff in H1. apply H in H1. apply str_in_iff in H1. congruence.
Qed.

(** X3.  The rules read the approved list as a set of strings: two validators
    whose lists hold the same strings give the same results on every record,
    whatever the order of the entries, their repetitions and the entries
    that are not strings. *)
Theorem vessel_list_read_as_set (v1 v2 : DocumentValidator) :
  (forall s, In (JStr s) (valid_vessels v1) <-> In (JStr s) (valid_vessels v2)) ->
  forall d, validate_all v1 d = validate_all v2 d.
Proof.
  intros H d. rewrite !validate_all_results. do 2 f_equal.
  f_equal. unfold validate_vessel_name.
  destruct (vessel_name d) as [name|]; [|reflexivity].
  now rewrite (str_in_same_members _ _ name H).
Qed.

Lemma vessel_list_read_as_set_witness :
  let record :=
    {| policy_number := Some "HM-2025-10-A4B";
       vessel_name := Some "Oceanic Voyager";
       policy_start_date := None; policy_end_date := None;
       insured_value := Some 1 |} in
  validate_all
    {| valid_vessels_path := default_valid_vessels_path;
       valid_vessels := [JInt 7; JStr "Oceanic Voyager"; JNull;
                         JStr "MV Neptune"; JStr "Oceanic Voyager"] |}
    record
  = validate_all
      {| valid_vessels_path := default_valid_vessels_path;
         valid_vessels := [JStr "MV Neptune"; JStr "Oceanic Voyager"] |}
      record.
Proof.
  intros record. apply vessel_list_read_as_set.
  intros s. simpl. split.
  - intros [H|[H|[H|[H|[H|[]]]]]]; try discriminate; auto.
  - intros [H|[H|[]]]; auto.
Defined.

(** X4.  A longer approved list never takes a PASS away: when every string
    of one validator's list is in another's, a vessel name that passes with
    the first gets the same result, message included, with the second. *)
Theorem approved_list_growth_keeps_pass (v1 v2 : DocumentValidator)
    (name : option string) :
  (forall s, In (JStr s) (valid_vessels v1) -> In (JStr s) (valid_vessels v2)) ->
  status (validate_vessel_name v1 name) = "PASS" ->
  validate_vessel_name v2 name = validate_vessel_name v1 name.
Proof.
  intros Hsub Hpass.
  apply vessel_pass_iff in Hpass. destruct Hpass as [n [-> [Hb Hin]]].
  unfold validate_vessel_name.
  apply String.eqb_neq in Hb. rewrite Hb.
  assert (H1 : str_in n (valid_vessels v1) = true) by now apply str_in_iff.
  assert (H2 : str_in n (valid_vessels v2) = true)
    by now apply str_in_iff, Hsub.
  now rewrite H1, H2.
Qed.

Lemma approved_list_growth_keeps_pass_witness :
  validate_vessel_name
    {| valid_vessels_path := default_valid_vessels_path;
       valid_vessels := approved |} (Some "MV Neptune")
  = validate_vessel_name
      {| valid_vessels_path := default_valid_vessels_path;
         valid_vessels := [JStr "MV Neptune"] |} (Some "MV Neptune").
Proof.
  apply approved_list_growth_keeps_pass.
  - intros s [H|[]]. inversion H; subst. simpl. auto.
  - reflexivity.
Defined.

(** ** The loader's errors and start-up *)

Lemma append_assoc (a b c : string) : ((a ++ b) ++ c = a ++ (b ++ c))%string.
Proof. induction a as [|x a IH]; simpl; [reflexivity | now rewrite IH]. Qed.

Lemma json_errmsg_position (msg doc : string) (pos : Z) :
  json_errmsg msg doc pos = (msg ++ position_text doc pos)%string.
Proof. reflexivity. Qed.

(** X6.  For a vessels file that is not JSON the loader raises a
    [JSONDecodeError] with the document and the position of the decoder's
    error; its message is the decoder's whole text after "Invalid JSON in
    vessels file: ", so the text of the raised error tells the position
    twice. *)
Theorem invalid_json_error_text (path msg doc : string) (pos : Z) :
  _load_valid_vessels path (NotJSON msg doc pos)
  = inl (JSONDecodeError
           ("Invalid JSON in vessels file: " ++ msg ++ position_text doc pos)
           doc pos)
  /\ str_of_exn
       (JSONDecodeError
          ("Invalid JSON in vessels file: " ++ msg ++ position_text doc pos)
          doc pos)
     = ("Invalid JSON in vessels file: " ++ msg
        ++ position_text doc pos ++ position_text doc pos)%string
  /\ exists rest, position_text doc pos = (": line " ++ rest)%string.
Proof.
  split; [reflexivity|]. split.
  - cbn [str_of_exn]. rewrite json_errmsg_position.
    now rewrite !append_assoc.
  - eexists. reflexivity.
Qed.

Lemma AIExtractor_init_env (getenv : string -> option string) :
  AiExtractor.AIExtractor_init None getenv
  = match getenv "GEMINI_API_KEY" with
    | Some key =>
        if (key =? "")%string
        then inl (ValueError
          "Gemini API key not found. Please set GEMINI_API_KEY environment variable.")
        else inr {| AiExtractor.api_key := key |}
    | None =>
        inl (ValueError
          "Gemini API key not found. Please set GEMINI_API_KEY environment variable.")
    end.
Proof. reflexivity. Qed.

(** The result of start-up, by the API key and the vessels file. *)
Lemma startup_table (env : Env) :
  startup env
  = let neither := inr {| ai_extractor := None; document_validator := None |} in
    match getenv env "GEMINI_API_KEY" with
    | None => neither
    | Some key =>
        if (key =? "")%string then neither
        else
          let extractor := {| AiExtractor.api_key := key |} in
          match read_json env default_valid_vessels_path with
          | NoSuchFile =>
              inr {| ai_extractor := Some extractor;
                     document_validator := None |}
          | Unreadable msg => inl (OSError msg)
          | NotJSON _ _ _ => neither
          | Loaded (JList items) =>
              inr {| ai_extractor := Some extractor;
                     document_validator :=
                       Some {| valid_vessels_path := default_valid_vessels_path;
                               valid_vessels := items |} |}
          | Loaded _ => neither
          end
    end.
Proof.
  unfold startup. rewrite AIExtractor_init_env.
  destruct (getenv env "GEMINI_API_KEY") as [key|]; [|reflexivity].
  destruct (key =? "")%string; [reflexivity|].
  unfold DocumentValidator_init.
  destruct (read_json env default_valid_vessels_path) as [|m|m d p|v];
    try reflexivity.
  destruct v; reflexivity.
Qed.

Ltac startup_case :=
  repeat match goal with
         | H : exists _, _ |- _ => destruct H
         | H : _ /\ _ |- _ => destruct H
         | H : _ \/ _ |- _ => destruct H
         | H : malformed _ |- _ => unfold malformed in H
         | H : inr _ = inr _ |- _ => inversion H; subst; clear H
         | H : inl _ = inl _ |- _ => inversion H; subst; clear H
         | H : Some _ = Some _ |- _ => inversion H; subst; clear H
         | H : Loaded _ = Loaded _ |- _ => inversion H; subst; clear H
         | H : Unreadable _ = Unreadable _ |- _ => inversion H; subst; clear H
         end;
  try discriminate; try congruence.

(** X7.  Start-up binds both services exactly when the API key is given and
    the vessels file holds a JSON array, whose items become the validator's
    list, and it binds the extractor alone exactly when the key is given and
    the file is missing.  When the key is absent or empty, or the file is
    not JSON or not an array, it binds neither service.  The validator is
    never bound without the extractor.  When the key is given and opening
    the file fails with another error of the operating system, start-up
    raises that error. *)
Theorem startup_outcomes (env : Env) :
  let src := read_json env default_valid_vessels_path in
  (forall x v,
      startup env = inr {| ai_extractor := Some x; document_validator := Some v |}
      <-> key_given env = true
          /\ getenv env "GEMINI_API_KEY" = Some (AiExtractor.api_key x)
          /\ exists items,
              src = Loaded (JList items)
              /\ v = {| valid_vessels_path := default_valid_vessels_path;
                        valid_vessels := items |})
  /\ (forall x,
      startup env = inr {| ai_extractor := Some x; document_validator := None |}
      <-> key_given env = true
          /\ getenv env "GEMINI_API_KEY" = Some (AiExtractor.api_key x)
          /\ src = NoSuchFile)
  /\ (key_given env = false \/ malformed src ->
      startup env = inr {| ai_extractor := None; document_validator := None |})
  /\ (forall v,
      startup env
      <> inr {| ai_extractor := None; document_validator := Some v |})
  /\ (forall msg,
      key_given env = true -> src = Unreadable msg ->
      startup env = inl (OSError msg)).
Proof.
  intros src. subst src. rewrite startup_table. unfold key_given, truthy.
  cbv zeta.
  destruct (getenv env "GEMINI_API_KEY") as [key|].
  2:{ repeat apply conj; intros; try split; intros; startup_case; auto. }
  destruct (String.eqb_spec key "") as [Hk|Hk]; cbn [negb].
  { repeat apply conj; intros; try split; intros; startup_case; auto. }
  destruct (read_json env default_valid_vessels_path) as [|m|m d p|v];
    [| | |destruct v];
    repeat apply conj; intros; try split; intros; startup_case; auto.
  all: try (destruct x; simpl in *; subst).
  all: try (repeat split; fail).
  all: eauto.
Qed.

Lemma startup_outcomes_witness :
  startup env_no_file
  = inr {| ai_extractor := Some {| AiExtractor.api_key := "secret" |};
           document_validator := None |}.
Proof.
  destruct (startup_outcomes env_no_file) as [_ [H _]].
  apply H. repeat split.
Defined.

(** ** The responses of [/validate] *)

Section ResponseFacts.

Variable gemini : call -> AiExtractor.reply.
Variables prompt_head prompt_tail : string.
Variable fromisoformat : string -> option date.

Local Abbreviation handler :=
  (validate_document gemini prompt_head prompt_tail fromisoformat).
Local Abbreviation post :=
  (post_validate gemini prompt_head prompt_tail fromisoformat).
Local Abbreviation sent text := (extraction_call prompt_head prompt_tail text).

Lemma post_nonempty (services : Services) (text : string) :
  text <> "" ->
  post services text
  = match run (handler services {| document_text := text |}) with
    | (inr body, made) => (Ok200 body, made)
    | (inl (HTTPException status_code detail), made) =>
        (Error status_code detail, made)
    | (inl _, made) => (Error 500 "Internal Server Error", made)
    end.
Proof. destruct text as [|c t]; [congruence | reflexivity]. Qed.

Lemma post_without_extractor (services : Services) (text : string) :
  text <> "" -> ai_extractor services = None ->
  post services text
  = (Error 503 "AI service not available. Please configure GEMINI_API_KEY.",
     []).
Proof.
  intros Ht Hx. rewrite (post_nonempty services text Ht).
  unfold validate_document. now rewrite Hx.
Qed.

Lemma post_without_validator (services : Services) (text : string)
    (extractor : AiExtractor.AIExtractor) :
  text <> "" -> ai_extractor services = Some extractor ->
  document_validator services = None ->
  post services text
  = (Error 503
       "Validation service not available. Check valid_vessels.json file.",
     []).
Proof.
  intros Ht Hx Hv. rewrite (post_nonempty services text Ht).
  unfold validate_document. now rewrite Hx, Hv.
Qed.

(** X8.  Every response of [/validate] is of one of four kinds.  It is 422,
    with no call made, exactly for the empty text.  It is 503, with no call
    made, when a service is unbound.  It is 500 after one call, with a
    detail that starts with "AI extraction failed: ", when the client raised
    or parsed nothing; the handler never reports a failed validation or an
    internal error.  Otherwise it is 200 after one call, and the body holds
    the extractor's policy number, vessel name and insured value and the
    results of [validate_all] on the body's record. *)
Theorem post_validate_responses (services : Services) (text : string) :
  match post services text with
  | (Unprocessable422, made) => text = "" /\ made = []
  | (Error status_code detail, made) =>
      text <> ""
      /\ ((status_code = 503 /\ made = []
           /\ (ai_extractor services = None
               \/ document_validator services = None))
          \/ (status_code = 500 /\ made = [sent text]
              /\ String.prefix "AI extraction failed: " detail = true
              /\ ai_extractor services <> None
              /\ document_validator services <> None
              /\ forall ai, gemini (sent text) <> AiExtractor.Parsed (Some ai)))
  | (Ok200 body, made) =>
      text <> "" /\ made = [sent text]
      /\ ai_extractor services <> None
      /\ exists validator ai,
          document_validator services = Some validator
          /\ gemini (sent text) = AiExtractor.Parsed (Some ai)
          /\ policy_number (extracted_data body)
             = AiExtractor.policy_number ai
          /\ vessel_name (extracted_data body) = AiExtractor.vessel_name ai
          /\ insured_value (extracted_data body)
             = AiExtractor.insured_value ai
          /\ validation_results body
             = validate_all validator (extracted_data body)
  end.
Proof.
  destruct text as [|c t]; [now split|].
  set (text := String c t).
  assert (Ht : text <> "") by discriminate.
  destruct (ai_extractor services) as [extractor|] eqn:Hx.
  2:{ rewrite (post_without_extractor services text Ht Hx).
      split; [exact Ht|]. left. auto. }
  destruct (document_validator services) as [validator|] eqn:Hv.
  2:{ rewrite (post_without_validator services text extractor Ht Hx Hv).
      split; [exact Ht|]. left. auto. }
  rewrite (post_nonempty services text Ht).
  rewrite (handler_with_services gemini prompt_head prompt_tail fromisoformat
             services extractor validator _ Hx Hv).
  cbn [document_text].
  destruct (gemini (sent text)) as [e|[ai|]] eqn:Hg.
  - split; [exact Ht|]. right. repeat split; try discriminate.
  - cbv zeta. repeat split; try discriminate.
    exists validator, ai. repeat split.
  - split; [exact Ht|]. right. repeat split; try discriminate.
Qed.

(** X9.  With the API key given and a vessels file that is not JSON or not an
    array, the service starts with neither service bound, and every text that
    is not empty is answered 503 with the detail that names the API key, not
    the vessels file. *)
Theorem malformed_file_blamed_on_api_key (env : Env) (text : string) :
  key_given env = true ->
  malformed (read_json env default_valid_vessels_path) ->
  text <> "" ->
  startup env = inr {| ai_extractor := None; document_validator := None |}
  /\ post {| ai_extractor := None; document_validator := None |} text
     = (Error 503
          "AI service not available. Please configure GEMINI_API_KEY.", []).
Proof.
  intros Hkey Hsrc Ht. split.
  - rewrite startup_table. cbv zeta.
    destruct (getenv env "GEMINI_API_KEY") as [key|]; [|reflexivity].
    destruct (key =? "")%string; [reflexivity|].
    destruct Hsrc as [[m [d [p H]]]|[v [H Hv]]]; rewrite H; [reflexivity|].
    destruct v; try reflexivity. discriminate.
  - now apply post_without_extractor.
Qed.

(** X10.  When the client raises, the request is answered 500 after the one
    call, and the detail carries the words "AI extraction failed: " twice,
    once from the extractor and once from the handler, before the text of
    the client's exception. *)
Theorem extraction_failure_detail (services : Services)
    (extractor : AiExtractor.AIExtractor) (validator : DocumentValidator)
    (text : string) (e : exn) :
  ai_extractor services = Some extractor ->
  document_validator services = Some validator ->
  text <> "" ->
  gemini (sent text) = AiExtractor.Raises e ->
  post services text
  = (Error 500
       ("AI extraction failed: AI extraction failed: " ++ str_of_exn e),
     [sent text]).
Proof.
  intros Hx Hv Ht Hg. rewrite (post_nonempty services text Ht).
  rewrite (handler_with_services gemini prompt_head prompt_tail fromisoformat
             services extractor validator _ Hx Hv).
  cbn [document_text]. now rewrite Hg.
Qed.

(** X11.  The handler's conversion of a date text gives a date exactly when
    the text is present, is not empty and parses, and then gives the parsed
    date; for the empty text the result is absent whatever the parser makes
    of it. *)
Theorem parse_date_some_iff (text : option string) (d : date) :
  parse_date fromisoformat text = Some d
  <-> exists iso, text = Some iso /\ iso <> "" /\ fromisoformat iso = Some d.
Proof.
  unfold parse_date, truthy. destruct text as [iso|].
  - destruct (String.eqb_spec iso "") as [He|He]; cbn [negb].
    + split; [discriminate|].
      intros [i [H1 [H2 _]]]. inversion H1; subst. contradiction.
    + destruct (fromisoformat iso) as [p|] eqn:Hp; split.
      * intros H. exists iso. repeat split; congruence.
      * intros [i [H1 [_ H3]]]. inversion H1; subst. congruence.
      * discriminate.
      * intros [i [H1 [_ H3]]]. inversion H1; subst. congruence.
  - split; [discriminate | intros [i [H _]]; discriminate].
Qed.

(** X12.  When the extractor returns a record of which a date is absent,
    empty or does not parse, the request is still answered 200, and the
    first result is the failure of Date Consistency that asks for both
    dates. *)
Theorem unparsable_date_reported_missing (services : Services)
    (extractor : AiExtractor.AIExtractor) (validator : DocumentValidator)
    (text : string) (ai : AiExtractor.AIExtractedData) :
  ai_extractor services = Some extractor ->
  document_validator services = Some validator ->
  text <> "" ->
  gemini (sent text) = AiExtractor.Parsed (Some ai) ->
  parse_date fromisoformat (AiExtractor.policy_start_date ai) = None
  \/ parse_date fromisoformat (AiExtractor.policy_end_date ai) = None ->
  exists body,
    post services text = (Ok200 body, [sent text])
    /\ nth_error (validation_results body) 0
       = Some {| rule := "Date Consistency"; status := "FAIL";
                 message :=
                   "Both start and end dates must be present for validation." |}.
Proof.
  intros Hx Hv Ht Hg Hd. rewrite (post_nonempty services text Ht).
  rewrite (handler_with_services gemini prompt_head prompt_tail fromisoformat
             services extractor validator _ Hx Hv).
  cbn [document_text]. rewrite Hg. cbv zeta.
  eexists. split; [reflexivity|].
  cbn [validation_results]. rewrite validate_all_results.
  cbn [nth_error policy_start_date policy_end_date].
  destruct Hd as [H|H]; rewrite H; [reflexivity|].
  now destruct (parse_date fromisoformat (AiExtractor.policy_start_date ai)).
Qed.

End ResponseFacts.

Lemma malformed_file_blamed_on_api_key_witness :
  let env :=
    {| getenv := getenv env_no_file;
       read_json := fun _ => Loaded (JDict [("vessels", JList [])]) |} in
  startup env = inr {| ai_extractor := None; document_validator := None |}
  /\ post_validate (always bad_start) "" "" Date.fromisoformat
       {| ai_extractor := None; document_validator := None |} "policy text"
     = (Error 503
          "AI service not available. Please configure GEMINI_API_KEY.", []).
Proof.
  intros env.
  apply (malformed_file_blamed_on_api_key (always bad_start) "" ""
           Date.fromisoformat env "policy text").
  - reflexivity.
  - right. eexists. split; reflexivity.
  - discriminate.
Defined.

Lemma extraction_failure_detail_witness :
  post_validate (fun _ => AiExtractor.Raises (OSError "connection refused"))
    "Document: " "" Date.fromisoformat sample_services "policy text"
  = (Error 500
       "AI extraction failed: AI extraction failed: connection refused",
     [extraction_call "Document: " "" "policy text"]).
Proof.
  apply (extraction_failure_detail
           (fun _ => AiExtractor.Raises (OSError "connection refused"))
           "Document: " "" Date.fromisoformat sample_services
           {| AiExtractor.api_key := "secret" |}
           {| valid_vessels_path := default_valid_vessels_path;
              valid_vessels := approved |}
           "policy text" (OSError "connection refused"));
    try reflexivity.
  discriminate.
Defined.

Lemma unparsable_date_reported_missing_witness :
  exists body,
    post_validate (always bad_start) "Document: " "" Date.fromisoformat
      sample_services "policy text"
    = (Ok200 body, [extraction_call "Document: " "" "policy text"])
    /\ nth_error (validation_results body) 0
       = Some {| rule := "Date Consistency"; status := "FAIL";
                 message :=
                   "Both start and end dates must be present for validation." |}.
Proof.
  apply (unparsable_date_reported_missing (always bad_start) "Document: " ""
           Date.fromisoformat sample_services
           {| AiExtractor.api_key := "secret" |}
           {| valid_vessels_path := default_valid_vessels_path;
              valid_vessels := approved |}
           "policy text" bad_start); try reflexivity.
  - discriminate.
  - left. reflexivity.
Defined.

(** ** The extractor *)

(** X13.  An extractor is built exactly when the key passed in, or else the
    environment's [GEMINI_API_KEY], is a string that is not empty, and its
    key is that string, the key passed in coming first; otherwise the
    constructor raises a [ValueError]. *)
Theorem AIExtractor_init_key (api_key : option string)
    (getenv : string -> option string) :
  (forall x,
      AiExtractor.AIExtractor_init api_key getenv = inr x
      <-> AiExtractor.api_key x <> ""
          /\ (api_key = Some (AiExtractor.api_key x)
              \/ (truthy api_key = false
                  /\ getenv "GEMINI_API_KEY" = Some (AiExtractor.api_key x))))
  /\ (forall e,
      AiExtractor.AIExtractor_init api_key getenv = inl e
      <-> truthy api_key = false /\ truthy (getenv "GEMINI_API_KEY") = false
          /\ e = ValueError
            "Gemini API key not found. Please set GEMINI_API_KEY environment variable.").
Proof.
  unfold AiExtractor.AIExtractor_init.
  destruct api_key as [k|]; cbn [truthy];
    [destruct (String.eqb_spec k "") as [Hk|Hk]; cbn [negb]|];
    (destruct (getenv "GEMINI_API_KEY") as [g|]; cbn [truthy];
     [destruct (String.eqb_spec g "") as [Hg|Hg]; cbn [negb]|]);
    try (destruct (String.eqb_spec k "") as [Hk'|Hk']; [congruence|]);
    (split; [intros [kx]; cbn [AiExtractor.api_key]; split; intros H
            | intros e; split; intros H]);
    startup_case.
  all: try (split; [assumption|]).
  all: try (left; reflexivity).
  all: try (right; split; reflexivity).
  all: try (repeat split; reflexivity).
Qed.

(** ** The test runner and the tests *)

Module TC := TestComprehensive.

Lemma run_tests_cons (runner : TC.TestRunner) (t : string * TC.outcome)
    (tests : list (string * TC.outcome)) :
  TC.run_tests runner (t :: tests)
  = TC.run_tests (fst (TC.run_test runner (fst t) (snd t))) tests.
Proof. reflexivity. Qed.

Lemma count_returned_split (tests : list (string * TC.outcome)) :
  count_returned tests + count_not_returned tests
  = Z.of_nat (List.length tests).
Proof.
  unfold count_returned, count_not_returned.
  induction tests as [|[name o] tests IH]; [reflexivity|].
  cbn [filter snd]. destruct (returned o); cbn [negb List.length]; lia.
Qed.

(** X15.  Running tests one after the other adds the number of tests to
    [total], the number of tests that returned to [passed] and the number of
    the others to [failed], and leaves the extractor and the validator as
    they were; so [passed + failed = total] holds after the tests when it
    held before, as it does for a new runner. *)
Theorem run_tests_counters (runner : TC.TestRunner)
    (tests : list (string * TC.outcome)) :
  let after := TC.run_tests runner tests in
  TC.total after = TC.total runner + Z.of_nat (List.length tests)
  /\ TC.passed after = TC.passed runner + count_returned tests
  /\ TC.failed after = TC.failed runner + count_not_returned tests
  /\ TC.passed after + TC.failed after - TC.total after
     = TC.passed runner + TC.failed runner - TC.total runner
  /\ TC.extractor after = TC.extractor runner
  /\ TC.validator after = TC.validator runner
  /\ (forall getenv read,
        TC.TestRunner_init getenv read = inr runner ->
        TC.passed after + TC.failed after = TC.total after).
Proof.
  cbv zeta.
  assert (Hmain :
    TC.total (TC.run_tests runner tests)
    = TC.total runner + Z.of_nat (List.length tests)
    /\ TC.passed (TC.run_tests runner tests)
       = TC.passed runner + count_returned tests
    /\ TC.failed (TC.run_tests runner tests)
       = TC.failed runner + count_not_returned tests
    /\ TC.extractor (TC.run_tests runner tests) = TC.extractor runner
    /\ TC.validator (TC.run_tests runner tests) = TC.validator runner).
  { revert runner. unfold count_returned, count_not_returned.
    induction tests as [|[name o] tests IH]; intros runner.
    - cbn. repeat split; lia.
    - rewrite run_tests_cons. cbn [fst snd].
      destruct (IH (fst (TC.run_test runner name o)))
        as [Ht [Hp [Hf [Hx Hv]]]].
      rewrite Ht, Hp, Hf, Hx, Hv.
      destruct o; cbn [TC.run_test fst snd TC.total TC.passed TC.failed
                       TC.extractor TC.validator filter returned negb
                       List.length];
        repeat split; lia. }
  destruct Hmain as [Ht [Hp [Hf [Hx Hv]]]].
  pose proof (count_returned_split tests) as Hsum.
  repeat apply conj; try assumption; try lia.
  intros getenv read Hinit. unfold TC.TestRunner_init in Hinit.
  destruct (AiExtractor.AIExtractor_init None getenv); [discriminate|].
  destruct (DocumentValidator_init default_valid_vessels_path read);
    [discriminate|].
  inversion Hinit; subst runner. cbn [TC.passed TC.failed TC.total] in *. lia.
Qed.

Lemma vessel_test_passes (validator : DocumentValidator) (vessel : string) :
  strip vessel <> "" -> In (JStr vessel) (valid_vessels validator) ->
  (status (validate_vessel_name validator (Some vessel)) =? "PASS")%string
  = true.
Proof.
  intros Hb Hin. rewrite (status_vessel_present validator vessel Hb).
  apply str_in_iff in Hin. now rewrite Hin.
Qed.

Lemma vessel_test_fails (validator : DocumentValidator) (vessel : string) :
  strip vessel <> "" -> ~ In (JStr vessel) (valid_vessels validator) ->
  (status (validate_vessel_name validator (Some vessel)) =? "FAIL")%string
  = true.
Proof.
  intros Hb Hout. rewrite (status_vessel_present validator vessel Hb).
  destruct (str_in vessel (valid_vessels validator)) eqn:Hin; [|reflexivity].
  apply str_in_iff in Hin. contradiction.
Qed.

(** The tests that do not look at the approved list return, whatever the
    validator. *)
Lemma list_free_tests_return (validator : DocumentValidator) :
  TC.test_date_valid validator = TC.Returns
  /\ TC.test_date_invalid validator = TC.Returns
  /\ TC.test_date_same validator = TC.Returns
  /\ TC.test_date_missing validator = TC.Returns
  /\ TC.test_value_positive validator = TC.Returns
  /\ TC.test_value_zero validator = TC.Returns
  /\ TC.test_value_negative validator = TC.Returns
  /\ TC.test_value_none validator = TC.Returns
  /\ TC.test_vessel_none validator = TC.Returns
  /\ TC.test_vessel_empty validator = TC.Returns
  /\ TC.test_policy_valid validator = TC.Returns
  /\ TC.test_policy_none validator = TC.Returns
  /\ TC.test_policy_empty validator = TC.Returns
  /\ TC.test_large_value validator = TC.Returns
  /\ TC.test_one_day_apart validator = TC.Returns
  /\ TC.test_one_year_apart validator = TC.Returns
  /\ TC.test_policy_whitespace validator = TC.Returns.
Proof. repeat apply conj; reflexivity. Qed.

(** X16.  For every runner whose validator's list holds the five vessel
    names of the tests and does not hold "Unknown Ship", the fifteen tests
    of the rules and the nine tests of the edge cases all pass: each suite
    adds its number of tests to [passed] and nothing to [failed]. *)
Theorem rule_and_edge_suites_pass (runner : TC.TestRunner) :
  (forall vessel, In vessel TC.vessels ->
                  In (JStr vessel) (valid_vessels (TC.validator runner))) ->
  ~ In (JStr "Unknown Ship") (valid_vessels (TC.validator runner)) ->
  TC.passed (TC.test_validation_rules runner) = TC.passed runner + 15
  /\ TC.failed (TC.test_validation_rules runner) = TC.failed runner
  /\ TC.passed (TC.test_edge_cases runner) = TC.passed runner + 9
  /\ TC.failed (TC.test_edge_cases runner) = TC.failed runner.
Proof.
  intros Hin Hout.
  assert (Hv : forall vessel, In vessel TC.vessels ->
             TC.test_approved_vessel (TC.validator runner) vessel
             = TC.Returns).
  { intros vessel Hv. unfold TC.test_approved_vessel.
    rewrite vessel_test_passes; [reflexivity | | now apply Hin].
    simpl in Hv.
    destruct Hv as [H|[H|[H|[H|[H|[]]]]]]; subst vessel; discriminate. }
  assert (Hvalid : TC.test_vessel_valid (TC.validator runner) = TC.Returns).
  { unfold TC.test_vessel_valid.
    rewrite vessel_test_passes; [reflexivity | discriminate |].
    apply Hin. simpl. auto. }
  assert (Hinvalid : TC.test_vessel_invalid (TC.validator runner) = TC.Returns).
  { unfold TC.test_vessel_invalid.
    rewrite vessel_test_fails; [reflexivity | discriminate | exact Hout]. }
  destruct (list_free_tests_return (TC.validator runner))
    as [T1 [T2 [T3 [T4 [T5 [T6 [T7 [T8 [T9 [T10 [T11 [T12 [T13 [T14
        [T15 [T16 T17]]]]]]]]]]]]]]]].
  unfold TC.test_validation_rules, TC.test_edge_cases. cbv zeta.
  rewrite Hvalid, Hinvalid, T1, T2, T3, T4, T5, T6, T7, T8, T9, T10, T11, T12,
    T13, T14, T15, T16, T17.
  unfold TC.vessels. cbn [map].
  rewrite !Hv by (simpl; tauto).
  cbn [TC.run_tests fold_left TC.run_test fst snd TC.passed TC.failed
       TC.total TC.extractor TC.validator].
  repeat split; lia.
Qed.

Lemma rule_and_edge_suites_pass_witness :
  let runner :=
    {| TC.passed := 0; TC.failed := 0; TC.total := 0;
       TC.extractor := {| AiExtractor.api_key := "secret" |};
       TC.validator := {| valid_vessels_path := default_valid_vessels_path;
                          valid_vessels := approved |} |} in
  TC.passed (TC.test_validation_rules runner) = 15
  /\ TC.failed (TC.test_validation_rules runner) = 0
  /\ TC.passed (TC.test_edge_cases runner) = 9
  /\ TC.failed (TC.test_edge_cases runner) = 0.
Proof.
  intros runner. apply (rule_and_edge_suites_pass runner).
  - intros vessel H. simpl in H.
    destruct H as [H|[H|[H|[H|[H|[]]]]]]; subst vessel; simpl; tauto.
  - simpl. intros [H|[H|[H|[H|[H|[]]]]]]; discriminate.
Defined.

Section DocumentTests.

Variable gemini : call -> AiExtractor.reply.
Variables prompt_head prompt_tail : string.
Variable parse : string -> string + date.
Variable files : string -> option string.

Local Abbreviation sent text := (extraction_call prompt_head prompt_tail text).

Lemma date_if_given_readable (text : option string) (made : list call) :
  ~ unreadable_date parse text ->
  TC.date_if_given parse text made
  = (inr (parse_date (quiet parse) text), made).
Proof.
  intros H. unfold TC.date_if_given, parse_date, quiet, truthy.
  destruct text as [iso|]; [|reflexivity].
  destruct (String.eqb_spec iso "") as [He|He]; cbn [negb]; [reflexivity|].
  destruct (parse iso) as [msg|d] eqn:Hp; [|reflexivity].
  exfalso. apply H. now exists iso, msg.
Qed.

Lemma date_if_given_unreadable (text : option string) (made : list call) :
  unreadable_date parse text ->
  exists msg, TC.date_if_given parse text made = (inl (ValueError msg), made).
Proof.
  intros [iso [msg [-> [He Hp]]]]. exists msg.
  unfold TC.date_if_given, truthy.
  apply String.eqb_neq in He. now rewrite He, Hp.
Qed.

Lemma unreadable_date_dec (text : option string) :
  unreadable_date parse text \/ ~ unreadable_date parse text.
Proof.
  destruct text as [iso|].
  - destruct (String.eqb_spec iso "") as [He|He].
    + right. intros [i [m [H1 [H2 _]]]]. inversion H1; subst. contradiction.
    + destruct (parse iso) as [msg|d] eqn:Hp.
      * left. now exists iso, msg.
      * right. intros [i [m [H1 [_ H3]]]]. inversion H1; subst. congruence.
  - right. intros [i [m [H _]]]. discriminate.
Qed.

Lemma to_extracted_readable (ai : AiExtractor.AIExtractedData)
    (made : list call) :
  ~ unreadable_date parse (AiExtractor.policy_start_date ai) ->
  ~ unreadable_date parse (AiExtractor.policy_end_date ai) ->
  TC.to_extracted parse (Some ai) made
  = (inr (handler_record (quiet parse) ai), made).
Proof.
  intros Hs He. unfold TC.to_extracted, bind.
  rewrite (date_if_given_readable _ made Hs).
  rewrite (date_if_given_readable _ made He). reflexivity.
Qed.

(** X17.  The tests convert the extractor's record without the handler's
    [try]: where the handler always obtains a record, a date that does not
    parse being absent in it, the tests' conversion obtains the same record
    when no date text is unreadable, and raises the parser's [ValueError]
    when one is. *)
Theorem tests_conversion_vs_handler (ai : AiExtractor.AIExtractedData)
    (made : list call) :
  convert (quiet parse) (Some ai) made
  = (inr (handler_record (quiet parse) ai), made)
  /\ (~ unreadable_date parse (AiExtractor.policy_start_date ai) ->
      ~ unreadable_date parse (AiExtractor.policy_end_date ai) ->
      TC.to_extracted parse (Some ai) made
      = (inr (handler_record (quiet parse) ai), made))
  /\ (unreadable_date parse (AiExtractor.policy_start_date ai)
      \/ unreadable_date parse (AiExtractor.policy_end_date ai) ->
      exists msg,
        TC.to_extracted parse (Some ai) made = (inl (ValueError msg), made)).
Proof.
  split; [reflexivity|]. split.
  - apply to_extracted_readable.
  - intros H. unfold TC.to_extracted, bind.
    destruct (unreadable_date_dec (AiExtractor.policy_start_date ai))
      as [Hs|Hs].
    + destruct (date_if_given_unreadable _ made Hs) as [msg Hm].
      exists msg. now rewrite Hm.
    + destruct H as [H|H]; [contradiction|].
      rewrite (date_if_given_readable _ made Hs).
      destruct (date_if_given_unreadable _ made H) as [msg Hm].
      exists msg. now rewrite Hm.
Qed.

(** X18.  For a document whose file is there, for which the extractor
    returns a record of which no date text is unreadable, [test_doc] makes
    the one call for the file's text and raises nothing; expecting a pass,
    it returns exactly when the handler's record satisfies all four rules,
    and expecting a failure, exactly when the record does not. *)
Theorem test_doc_verdict (runner : TC.TestRunner) (filename text : string)
    (should_pass : bool) (ai : AiExtractor.AIExtractedData) :
  files ("provided_assets/" ++ filename) = Some text ->
  gemini (sent text) = AiExtractor.Parsed (Some ai) ->
  ~ unreadable_date parse (AiExtractor.policy_start_date ai) ->
  ~ unreadable_date parse (AiExtractor.policy_end_date ai) ->
  let result :=
    TC.called (TC.test_doc gemini prompt_head prompt_tail parse files runner
                 filename should_pass) [] in
  snd result = [sent text]
  /\ (forall e, fst result <> TC.Raises e)
  /\ (fst result = TC.Returns
      <-> (fully_valid (TC.validator runner) (handler_record (quiet parse) ai)
           <-> should_pass = true)).
Proof.
  intros Hfile Hg Hs He. cbv zeta.
  pose proof (to_extracted_readable ai [sent text] Hs He) as Hconv.
  assert (Hrun :
    TC.called (TC.test_doc gemini prompt_head prompt_tail parse files runner
                 filename should_pass) []
    = (let n := TC.passed_count
                  (validate_all (TC.validator runner)
                     (handler_record (quiet parse) ai)) in
       if should_pass
       then TC.assert_ (n =? 4)
              ("Expected all validations to pass but "
               ++ TC.failures n ++ " failed")
       else TC.assert_ (negb (n =? 4))
              "Expected some validations to fail but all passed",
       [sent text])).
  { unfold TC.called, TC.test_doc. rewrite Hfile. unfold bind at 1.
    unfold AiExtractor.extract_data_sync, AiExtractor.generate_content,
      try_except, bind at 1, ret at 1.
    unfold extraction_call in Hg, Hconv |- *.
    rewrite Hg. cbn [app]. unfold bind. rewrite Hconv.
    cbv zeta. now destruct should_pass. }
  rewrite Hrun. cbv zeta. cbn [fst snd].
  pose proof (passed_count_validate_all (TC.validator runner)
                (handler_record (quiet parse) ai)) as Hiff.
  split; [reflexivity|].
  destruct (Z.eqb_spec
              (TC.passed_count
                 (validate_all (TC.validator runner)
                    (handler_record (quiet parse) ai))) 4) as [H4|H4];
    destruct should_pass; cbn [TC.assert_ negb];
    (split; [intros e; discriminate|]);
    intuition (try discriminate; try congruence).
Qed.

End DocumentTests.

Lemma tests_conversion_vs_handler_witness :
  convert (quiet isoformat_parser) (Some bad_start) []
  = (inr (handler_record (quiet isoformat_parser) bad_start), [])
  /\ TC.to_extracted isoformat_parser (Some good_record) []
     = (inr (handler_record (quiet isoformat_parser) good_record), [])
  /\ exists msg,
      TC.to_extracted isoformat_parser (Some bad_start) []
      = (inl (ValueError msg), []).
Proof.
  destruct (tests_conversion_vs_handler isoformat_parser bad_start [])
    as [Hc [_ Hbad]].
  destruct (tests_conversion_vs_handler isoformat_parser good_record [])
    as [_ [Hgood _]].
  split; [exact Hc|]. split.
  - apply Hgood; intros [iso [msg [H1 [_ H3]]]]; inversion H1; subst;
      discriminate.
  - apply Hbad. left. exists "2025-13-01". eexists. repeat split.
    discriminate.
Defined.

Lemma test_doc_verdict_witness :
  fst (TC.called
         (TC.test_doc (always good_record) "Document: " "" isoformat_parser
            sample_files sample_runner "sample_document_pass.txt" true) [])
  = TC.Returns.
Proof.
  destruct (test_doc_verdict (always good_record) "Document: " ""
              isoformat_parser sample_files sample_runner
              "sample_document_pass.txt"
              "Policy HM-2025-10-A4B for the vessel MV Neptune" true
              good_record eq_refl eq_refl) as [_ [_ H]].
  - intros [iso [msg [H1 [_ H3]]]]; inversion H1; subst; discriminate.
  - intros [iso [msg [H1 [_ H3]]]]; inversion H1; subst; discriminate.
  - apply H. split; [reflexivity|]. intros _.
    unfold fully_valid. cbn. repeat split.
    + exists (Date.mk 2025 1 1), (Date.mk 2025 12 31).
      repeat split. unfold later. cbn. lia.
    + exists 5000000. split; [reflexivity | lia].
    + exists "MV Neptune". repeat split; [discriminate | tauto].
    + exists "HM-2025-10-A4B". split; [reflexivity | discriminate].
Defined.

Lemma AIExtractor_init_same_key (g1 g2 : string -> option string) :
  g1 "GEMINI_API_KEY" = g2 "GEMINI_API_KEY" ->
  AiExtractor.AIExtractor_init None g1 = AiExtractor.AIExtractor_init None g2.
Proof. intros H. rewrite !AIExtractor_init_env. now rewrite H. Qed.

(** X19.  Let the tests' process see the [GEMINI_API_KEY] that the service
    sees after its [load_dotenv()], and the vessels file that the service
    sees.  Then the tests' runner is built exactly when start-up binds both
    services, with the same extractor and validator and its three counters
    at zero; where start-up goes on with a service unbound, the runner's
    constructor raises. *)
Theorem TestRunner_init_iff_service_ready (env : Env)
    (getenv_tests : string -> option string) (read_tests : string -> source)
    (runner : TC.TestRunner) :
  getenv_tests "GEMINI_API_KEY" = getenv env "GEMINI_API_KEY" ->
  read_tests default_valid_vessels_path
  = read_json env default_valid_vessels_path ->
  (TC.TestRunner_init getenv_tests read_tests = inr runner
   <-> startup env
       = inr {| ai_extractor := Some (TC.extractor runner);
                document_validator := Some (TC.validator runner) |}
       /\ TC.passed runner = 0 /\ TC.failed runner = 0
       /\ TC.total runner = 0).
Proof.
  intros Hkey Hfile.
  unfold TC.TestRunner_init, startup.
  rewrite (AIExtractor_init_same_key getenv_tests (getenv env) Hkey).
  unfold DocumentValidator_init. rewrite Hfile.
  destruct (AiExtractor.AIExtractor_init None (getenv env)) as [e|x] eqn:Hx.
  - pose proof (AIExtractor_init_raises _ _ _ Hx) as He.
    unfold on_init_error. rewrite He. split; [discriminate|].
    intros [H _]. discriminate.
  - destruct (_load_valid_vessels default_valid_vessels_path
                (read_json env default_valid_vessels_path))
      as [e|v] eqn:Hv.
    + split; [discriminate|]. intros [H _]. unfold on_init_error in H.
      destruct (is_ValueError e); [discriminate|].
      destruct (is_FileNotFoundError e); discriminate.
    + split.
      * intros H. inversion H; subst runner. repeat split.
      * intros [H [Hp [Hf Ht]]]. inversion H; subst.
        destruct runner; cbn in *; subst. reflexivity.
Qed.

Lemma TestRunner_init_iff_service_ready_witness :
  let env :=
    {| getenv := getenv env_no_file;
       read_json := fun _ => Loaded (JList approved) |} in
  TC.TestRunner_init (getenv env_no_file) (fun _ => Loaded (JList approved))
  = inr sample_runner.
Proof.
  intros env.
  apply (TestRunner_init_iff_service_ready env (getenv env_no_file)
           (fun _ => Loaded (JList approved)) sample_runner);
    repeat split.
Defined.

(** X20.  When every string of the approved list is free of surrounding white
    space, a vessel name with white space before or after it never passes,
    even when the name within is on the list. *)
Theorem untrimmed_name_fails (self : DocumentValidator) (name : string) :
  (forall s, In (JStr s) (valid_vessels self) -> strip s = s) ->
  strip name <> name ->
  status (validate_vessel_name self (Some name)) = "FAIL".
Proof.
  intros Hlist Hname.
  destruct (rule_statuses self
              {| policy_number := None; vessel_name := Some name;
                 policy_start_date := None; policy_end_date := None;
                 insured_value := None |}) as [_ [_ [[H|H] _]]];
    cbn [vessel_name] in H; [|exact H].
  apply vessel_pass_iff in H. destruct H as [n [Hn [_ Hin]]].
  inversion Hn; subst n. apply Hlist in Hin. contradiction.
Qed.

Lemma untrimmed_name_fails_witness :
  status (validate_vessel_name
            {| valid_vessels_path := default_valid_vessels_path;
               valid_vessels := approved |} (Some "MV Neptune "))
  = "FAIL".
Proof.
  apply untrimmed_name_fails.
  - intros s H. simpl in H.
    destruct H as [H|[H|[H|[H|[H|[]]]]]]; inversion H; reflexivity.
  - discriminate.
Defined.

Lemma run_tests_counters_witness :
  let after :=
    TC.run_tests sample_runner
      [ ("first", TC.Returns); ("second", TC.AssertionError "no");
        ("third", TC.Raises (OSError "disk")) ] in
  TC.passed after = 1 /\ TC.failed after = 2 /\ TC.total after = 3.
Proof.
  intros after.
  destruct (run_tests_counters sample_runner
              [ ("first", TC.Returns); ("second", TC.AssertionError "no");
                ("third", TC.Raises (OSError "disk")) ])
    as [Ht [Hp [Hf _]]].
  subst after. rewrite Ht, Hp, Hf. repeat split.
Defined.
